(** * The Mercuryo purchase-widget screen: signature, URL and session

    A shallow embedding of [app/(protected)/(tabs)/buy-crypto/index.tsx]:
    the two exported async functions [createWidgetSignature] and
    [buildMercuryoWidgetUrl], and the three closures of the React component
    [MercuryoIframeWidget] ([handleClose], [handleMessage], [buildUrl])
    together with its render function.

    Conventions.
    - A JavaScript string is a [string]: the sequence of the bytes of its
      UTF-8 encoding (strings are taken to be well formed, without lone
      surrogates).  Template-literal concatenation is [++].
    - A settled promise is an [Outcome]: it either resolved with a value or
      rejected with an error; [await] is the bind of [Outcome].  Promises
      that never settle are outside the model.
    - Calls that are visible from outside a function (console output, React
      state setters, the close callback, navigation) are recorded, in order,
      in a list of [Effect]s. *)

From Stdlib Require Import ZArith List String Ascii Bool Lia.
From Stdlib Require Import DecimalString.
From Stdlib Require DecimalZ.
Import ListNotations.
Local Open Scope string_scope.
Local Open Scope Z_scope.

(** ** Bytes and hexadecimal text *)

Definition bytes_of_string (s : string) : list Z :=
  map (fun c => Z.of_N (N_of_ascii c)) (list_ascii_of_string s).

Definition hexDigit (d : Z) : ascii :=
  if d <? 10 then ascii_of_N (Z.to_N (48 + d))
  else ascii_of_N (Z.to_N (87 + d)).

Definition upperHexDigit (d : Z) : ascii :=
  if d <? 10 then ascii_of_N (Z.to_N (48 + d))
  else ascii_of_N (Z.to_N (55 + d)).

Fixpoint hex_of_bytes (bs : list Z) : string :=
  match bs with
  | [] => EmptyString
  | b :: r =>
      String (hexDigit (Z.shiftr b 4 mod 16))
        (String (hexDigit (b mod 16)) (hex_of_bytes r))
  end.

(** ** SHA-512 (FIPS 180-4), the digest behind
    [Crypto.CryptoDigestAlgorithm.SHA512] *)

Module SHA512.

Definition w64 : Z := 2 ^ 64.

Definition add64 (a b : Z) : Z := (a + b) mod w64.
Definition not64 (a : Z) : Z := Z.lxor a (w64 - 1).
Definition shr (n x : Z) : Z := Z.shiftr x n.
Definition rotr (n x : Z) : Z :=
  Z.lor (Z.shiftr x n) (Z.shiftl x (64 - n) mod w64).

Definition Ch (x y z : Z) : Z := Z.lxor (Z.land x y) (Z.land (not64 x) z).
Definition Maj (x y z : Z) : Z :=
  Z.lxor (Z.lxor (Z.land x y) (Z.land x z)) (Z.land y z).
Definition Sigma0 (x : Z) : Z :=
  Z.lxor (Z.lxor (rotr 28 x) (rotr 34 x)) (rotr 39 x).
Definition Sigma1 (x : Z) : Z :=
  Z.lxor (Z.lxor (rotr 14 x) (rotr 18 x)) (rotr 41 x).
Definition sigma0 (x : Z) : Z :=
  Z.lxor (Z.lxor (rotr 1 x) (rotr 8 x)) (shr 7 x).
Definition sigma1 (x : Z) : Z :=
  Z.lxor (Z.lxor (rotr 19 x) (rotr 61 x)) (shr 6 x).

Definition K : list Z :=
  [ 0x428a2f98d728ae22; 0x7137449123ef65cd; 0xb5c0fbcfec4d3b2f; 0xe9b5dba58189dbbc;
    0x3956c25bf348b538; 0x59f111f1b605d019; 0x923f82a4af194f9b; 0xab1c5ed5da6d8118;
    0xd807aa98a3030242; 0x12835b0145706fbe; 0x243185be4ee4b28c; 0x550c7dc3d5ffb4e2;
    0x72be5d74f27b896f; 0x80deb1fe3b1696b1; 0x9bdc06a725c71235; 0xc19bf174cf692694;
    0xe49b69c19ef14ad2; 0xefbe4786384f25e3; 0x0fc19dc68b8cd5b5; 0x240ca1cc77ac9c65;
    0x2de92c6f592b0275; 0x4a7484aa6ea6e483; 0x5cb0a9dcbd41fbd4; 0x76f988da831153b5;
    0x983e5152ee66dfab; 0xa831c66d2db43210; 0xb00327c898fb213f; 0xbf597fc7beef0ee4;
    0xc6e00bf33da88fc2; 0xd5a79147930aa725; 0x06ca6351e003826f; 0x142929670a0e6e70;
    0x27b70a8546d22ffc; 0x2e1b21385c26c926; 0x4d2c6dfc5ac42aed; 0x53380d139d95b3df;
    0x650a73548baf63de; 0x766a0abb3c77b2a8; 0x81c2c92e47edaee6; 0x92722c851482353b;
    0xa2bfe8a14cf10364; 0xa81a664bbc423001; 0xc24b8b70d0f89791; 0xc76c51a30654be30;
    0xd192e819d6ef5218; 0xd69906245565a910; 0xf40e35855771202a; 0x106aa07032bbd1b8;
    0x19a4c116b8d2d0c8; 0x1e376c085141ab53; 0x2748774cdf8eeb99; 0x34b0bcb5e19b48a8;
    0x391c0cb3c5c95a63; 0x4ed8aa4ae3418acb; 0x5b9cca4f7763e373; 0x682e6ff3d6b2b8a3;
    0x748f82ee5defb2fc; 0x78a5636f43172f60; 0x84c87814a1f0ab72; 0x8cc702081a6439ec;
    0x90befffa23631e28; 0xa4506cebde82bde9; 0xbef9a3f7b2c67915; 0xc67178f2e372532b;
    0xca273eceea26619c; 0xd186b8c721c0c207; 0xeada7dd6cde0eb1e; 0xf57d4f7fee6ed178;
    0x06f067aa72176fba; 0x0a637dc5a2c898a6; 0x113f9804bef90dae; 0x1b710b35131c471b;
    0x28db77f523047d84; 0x32caab7b40c72493; 0x3c9ebe0a15c9bebc; 0x431d67c49c100d4c;
    0x4cc5d4becb3e42b6; 0x597f299cfc657e2a; 0x5fcb6fab3ad6faec; 0x6c44198c4a475817 ].

Definition H0 : list Z :=
  [ 0x6a09e667f3bcc908; 0xbb67ae8584caa73b; 0x3c6ef372fe94f82b; 0xa54ff53a5f1d36f1;
    0x510e527fade682d1; 0x9b05688c2b3e6c1f; 0x1f83d9abfb41bd6b; 0x5be0cd19137e2179 ].

(** Big-endian rendering of [x] on [n] bytes, and its inverse. *)
Fixpoint be_bytes (n : nat) (x : Z) : list Z :=
  match n with
  | O => []
  | S m => Z.shiftr x (8 * Z.of_nat m) mod 256 :: be_bytes m x
  end.

Definition be_word (bs : list Z) : Z :=
  fold_left (fun acc b => acc * 256 + b) bs 0.

(** Padding: a 1 bit, zeros up to 112 mod 128 bytes, then the bit length of
    the message on 128 bits. *)
Definition pad (msg : list Z) : list Z :=
  let len := Z.of_nat (List.length msg) in
  let zeros := Z.to_nat ((111 - len) mod 128) in
  (msg ++ [0x80] ++ repeat 0 zeros ++ be_bytes 16 (8 * len))%list.

Fixpoint chunks (fuel n : nat) (l : list Z) : list (list Z) :=
  match fuel with
  | O => []
  | S f =>
      match l with
      | [] => []
      | _ => firstn n l :: chunks f n (skipn n l)
      end
  end.

Definition words_of_block (block : list Z) : list Z :=
  map be_word (chunks 16 8 block).

Definition wnth (i : nat) (l : list Z) : Z := nth i l 0.

(** One round: [v] is the working state a..h, [win] the last sixteen words
    of the message schedule, whose head is the word of this round. *)
Definition round (k : Z) (v win : list Z) : list Z * list Z :=
  let a := wnth 0 v in let b := wnth 1 v in
  let c := wnth 2 v in let d := wnth 3 v in
  let e := wnth 4 v in let f := wnth 5 v in
  let g := wnth 6 v in let h := wnth 7 v in
  let w := wnth 0 win in
  let t1 := add64 (add64 (add64 (add64 h (Sigma1 e)) (Ch e f g)) k) w in
  let t2 := add64 (Sigma0 a) (Maj a b c) in
  let next :=
    add64 (add64 (add64 (sigma1 (wnth 14 win)) (wnth 9 win))
                 (sigma0 (wnth 1 win))) (wnth 0 win) in
  ([add64 t1 t2; a; b; c; add64 d t1; e; f; g], (tl win ++ [next])%list).

Fixpoint rounds (ks : list Z) (v win : list Z) : list Z :=
  match ks with
  | [] => v
  | k :: r => let '(v', win') := round k v win in rounds r v' win'
  end.

Fixpoint add_words (x y : list Z) : list Z :=
  match x, y with
  | a :: x', b :: y' => add64 a b :: add_words x' y'
  | _, _ => []
  end.

Definition compress (h : list Z) (block : list Z) : list Z :=
  add_words h (rounds K h (words_of_block block)).

Definition digest (msg : list Z) : list Z :=
  let p := pad msg in
  let blocks := chunks (List.length p) 128 p in
  flat_map (be_bytes 8) (fold_left compress blocks H0).

End SHA512.

Definition sha512hex (s : string) : string :=
  hex_of_bytes (SHA512.digest (bytes_of_string s)).

(** ** JavaScript values, errors and settled promises *)

(** The payloads that can reach the screen: what the structured clone of a
    posted message, a logged value or a callback argument can be.  Numbers
    are never inspected by the screen; they are kept as integers. *)
#[warnings="-register-all"] Inductive JsValue : Type :=
| JsUndefined
| JsNull
| JsBool (b : bool)
| JsNumber (n : Z)
| JsString (s : string)
| JsObject (fields : list (string * JsValue))
| JsArray (items : list JsValue).

(** An error object: its constructor name and its message. *)
Record JsError : Type := mkError { err_name : string; err_message : string }.

(** The result of a call or of an awaited promise. *)
Inductive Outcome (A : Type) : Type :=
| Return (a : A)
| Throw (e : JsError).
Arguments Return {A} a.
Arguments Throw {A} e.

(** [typeof v], for the values above. *)
Definition typeof (v : JsValue) : string :=
  match v with
  | JsUndefined => "undefined"
  | JsNull => "object"
  | JsBool _ => "boolean"
  | JsNumber _ => "number"
  | JsString _ => "string"
  | JsObject _ => "object"
  | JsArray _ => "object"
  end.

Fixpoint lookup_field (name : string) (fields : list (string * JsValue))
  : JsValue :=
  match fields with
  | [] => JsUndefined
  | (k, v) :: r => if String.eqb k name then v else lookup_field name r
  end.

(** [v.name] for a name that is neither an index nor [length]: reading a
    property of [null] or [undefined] throws a TypeError, an absent
    property reads as [undefined], primitives have no such own property. *)
Definition get_prop (v : JsValue) (name : string) : Outcome JsValue :=
  match v with
  | JsNull =>
      Throw (mkError "TypeError" ("Cannot read properties of null (reading '"
                                    ++ name ++ "')"))
  | JsUndefined =>
      Throw (mkError "TypeError"
               ("Cannot read properties of undefined (reading '"
                  ++ name ++ "')"))
  | JsObject fields => Return (lookup_field name fields)
  | _ => Return JsUndefined
  end.

(** [v === "lit"]: strict equality with a string literal. *)
Definition strict_eq_string (v : JsValue) (lit : string) : bool :=
  match v with
  | JsString s => String.eqb s lit
  | _ => false
  end.

(** Truthiness of a value of type [string | null | undefined]. *)
Definition truthy (o : option string) : bool :=
  match o with
  | Some s => negb (String.eqb s "")
  | None => false
  end.

(** The string behind a value that has been narrowed by a truthiness test. *)
Definition narrowed (o : option string) : string :=
  match o with
  | Some s => s
  | None => ""
  end.

Definition value_of (o : option string) : JsValue :=
  match o with
  | Some s => JsString s
  | None => JsUndefined
  end.

(** [n.toString()] for an integral number below 1e21 in magnitude. *)
Definition Number_toString (n : Z) : string :=
  NilZero.string_of_int (Z.to_int n).

(** ** [encodeURIComponent] *)

Definition in_range (lo hi : ascii) (c : ascii) : bool :=
  (N_of_ascii lo <=? N_of_ascii c)%N && (N_of_ascii c <=? N_of_ascii hi)%N.

(** The characters left as they are: A-Z a-z 0-9 - _ . ! ~ * ' ( ) *)
Definition uriUnescaped (c : ascii) : bool :=
  in_range "A" "Z" c || in_range "a" "z" c || in_range "0" "9" c
  || existsb (Ascii.eqb c)
       ["-"; "_"; "."; "!"; "~"; "*"; "'"; "("; ")"]%char.

Definition percentEscape (c : ascii) : string :=
  let b := Z.of_N (N_of_ascii c) in
  String "%" (String (upperHexDigit (Z.shiftr b 4 mod 16))
                (String (upperHexDigit (b mod 16)) EmptyString)).

Fixpoint encodeURIComponent (s : string) : string :=
  match s with
  | EmptyString => EmptyString
  | String c r =>
      if uriUnescaped c then String c (encodeURIComponent r)
      else percentEscape c ++ encodeURIComponent r
  end.

(** ** Effects *)

Inductive Effect : Type :=
| console_log (label : string) (v : JsValue)
| console_error (label : string) (e : JsError)
| setLoading (b : bool)
| setError (e : option string)
| setFinalUrl (u : string)
| call_getClientIp
| call_onClose (args : list JsValue)
| router_back.

(** A computation: the effects it performed, in order, and how it ended. *)
Definition M (A : Type) : Type := (list Effect * Outcome A)%type.

Definition ret {A} (a : A) : M A := ([], Return a).
Definition throw {A} (e : JsError) : M A := ([], Throw e).
Definition perform (e : Effect) : M unit := ([e], Return tt).
Definition await {A} (p : Outcome A) : M A := ([], p).
Definition eval {A} (r : Outcome A) : M A := ([], r).

Definition bind {A B} (m : M A) (k : A -> M B) : M B :=
  match m with
  | (t, Return a) => let '(t', r) := k a in ((t ++ t')%list, r)
  | (t, Throw e) => (t, Throw e)
  end.

Definition try_catch {A} (body : M A) (handler : JsError -> M A) : M A :=
  match body with
  | (t, Throw e) => let '(t', r) := handler e in ((t ++ t')%list, r)
  | done => done
  end.

Declare Scope js_scope.
Delimit Scope js_scope with js.
Notation "x <- m ;; k" := (bind m (fun x => k))
  (at level 61, m at next level, right associativity) : js_scope.
Notation "m ;; k" := (bind m (fun _ => k))
  (at level 61, right associativity) : js_scope.
Local Open Scope js_scope.

Definition effects {A} (m : M A) : list Effect := fst m.
Definition outcome {A} (m : M A) : Outcome A := snd m.

(** ** The collaborators *)

(** expo-crypto's [CryptoDigestAlgorithm]. *)
Inductive CryptoDigestAlgorithm : Type :=
| SHA1 | SHA256 | SHA384 | SHA512 | MD2 | MD4 | MD5.

(** The module [expo-crypto]: [digestStringAsync algorithm data], settled. *)
Record Crypto : Type := {
  digestStringAsync : CryptoDigestAlgorithm -> string -> Outcome string
}.

(** Modelled from the spec: the identity collaborator [useUser] (under
    [@/hooks], not part of the sources at hand) yields a user object
    "exposing at minimum a [safeAddress] field", which may be unset. *)
Record User : Type := { safeAddress : option string }.

(** What the screen reads from its surroundings during one build. *)
Record Host : Type := {
  crypto : Crypto;
  (** [Date.now()] *)
  Date_now : Z;
  (** Modelled from the spec: [getClientIp] (under [@/lib/api], not part of
      the sources at hand) is "an external get-client-IP utility returning
      the caller's public IP as a string"; here, the promise it returns,
      settled. *)
  getClientIp : Outcome string;
  (** [process.env.EXPO_PUBLIC_MERCURYO_WIDGET_ID] *)
  EXPO_PUBLIC_MERCURYO_WIDGET_ID : option string;
  (** [process.env.EXPO_PUBLIC_MERCURYO_WIDGET_SECRET] *)
  EXPO_PUBLIC_MERCURYO_WIDGET_SECRET : option string
}.

(** The [onClose] prop: a function of no argument, known here by how a call
    to it ends. *)
Record Callback : Type := { cb_outcome : Outcome unit }.

(** ** The exported functions *)

Definition createWidgetSignature (c : Crypto)
  (address secret ip merchantTransactionId : string) : Outcome string :=
  let concatenatedString := address ++ secret ++ ip ++ merchantTransactionId in
  match digestStringAsync c SHA512 concatenatedString with
  | Return hash => Return ("v2:" ++ hash)
  | Throw e => Throw e
  end.

Definition buildMercuryoWidgetUrl (c : Crypto) (now : Z)
  (address widgetId widgetSecret userIp : string) : M string :=
  let merchantTransactionId := Number_toString now in
  try_catch
    (signature <- await (createWidgetSignature c address widgetSecret userIp
                           merchantTransactionId) ;;
     let url := "https://exchange.mercuryo.io/?widget_id=" ++ widgetId in
     let url := url ++ "&address=" ++ address in
     let url := url ++ "&merchant_transaction_id=" ++ merchantTransactionId in
     let url := url ++ "&signature=" ++ encodeURIComponent signature in
     let url := url ++ "&type=buy" in
     let url := url ++ "&fiat_currency=EUR" in
     let url := url ++ "&networks=ETHEREUM" in
     let url := url ++ "&currency=USDC" in
     ret url)
    (fun error =>
       perform (console_error "Error generating Mercuryo widget URL:" error) ;;
       throw error).

(** ** The component [MercuryoIframeWidget] *)

(** Its three [useState] cells. *)
Record State : Type := {
  loading : bool;
  error : option string;
  finalUrl : string
}.

Definition initialState : State :=
  {| loading := true; error := None; finalUrl := "" |}.

Definition apply_effect (s : State) (e : Effect) : State :=
  match e with
  | setLoading b => {| loading := b; error := error s; finalUrl := finalUrl s |}
  | setError x => {| loading := loading s; error := x; finalUrl := finalUrl s |}
  | setFinalUrl u => {| loading := loading s; error := error s; finalUrl := u |}
  | _ => s
  end.

Definition apply_effects (s : State) (t : list Effect) : State :=
  fold_left apply_effect t s.

Section Component.

(** The [onClose] prop.  The message listener is installed once, by an effect
    without dependencies, so the [handleClose] it calls is the one of the
    first render: [onClose] is fixed for the life of the component. *)
Variable onClose : option Callback.

Definition handleClose (success : bool) : M unit :=
  match onClose with
  | Some cb => perform (call_onClose []) ;; eval (cb_outcome cb)
  | None => perform router_back
  end.

Definition handleIframeLoad : M unit :=
  perform (setLoading false).

Definition handleIframeError : M unit :=
  perform (setError
             (Some "Failed to load Mercuryo widget. Please try again later.")) ;;
  perform (setLoading false).

Definition handleMessage (data : JsValue) : M unit :=
  perform (console_log "Mercuryo message received:" data) ;;
  try_catch
    (if String.eqb (typeof data) "object" then
       status <- eval (get_prop data "status") ;;
       isSuccess <-
         (if strict_eq_string status "success" then ret true
          else event <- eval (get_prop data "event") ;;
               ret (strict_eq_string event "transaction.success")) ;;
       if (isSuccess : bool) then handleClose true
       else
         status <- eval (get_prop data "status") ;;
         isFailure <-
           (if strict_eq_string status "failure" then ret true
            else event <- eval (get_prop data "event") ;;
                 ret (strict_eq_string event "transaction.failure")) ;;
         if (isFailure : bool) then handleClose false else ret tt
     else ret tt)
    (fun err =>
       perform (console_error "Error handling Mercuryo message:" err)).

Definition buildUrl (h : Host) (user : option User) : M unit :=
  perform (setError None) ;;
  let address :=
    match user with Some u => safeAddress u | None => None end in
  perform (console_log "address" (value_of address)) ;;
  match user with
  | None => ret tt
  | Some _ =>
      if negb (truthy address) then
        perform (setError (Some "No address provided")) ;;
        perform (setLoading false)
      else
        try_catch
          (perform call_getClientIp ;;
           userIp <- await (getClientIp h) ;;
           let widgetId := EXPO_PUBLIC_MERCURYO_WIDGET_ID h in
           let widgetSecret := EXPO_PUBLIC_MERCURYO_WIDGET_SECRET h in
           (if negb (truthy widgetId) || negb (truthy widgetSecret) then
              throw (mkError "Error" "Mercuryo widget ID or secret is not set")
            else ret tt) ;;
           widgetUrl <- buildMercuryoWidgetUrl (crypto h) (Date_now h)
                          (narrowed address) (narrowed widgetId)
                          (narrowed widgetSecret) userIp ;;
           perform (console_log "Built Mercuryo URL:" (JsString widgetUrl)) ;;
           perform (setFinalUrl widgetUrl))
          (fun err =>
             perform (console_error "Error building Mercuryo URL:" err) ;;
             perform (setError (Some "Failed to initialize widget")) ;;
             perform (setLoading false))
  end.

End Component.

(** What the component returns to React. *)
Inductive Body : Type :=
| ErrorText (message : string)
| Iframe (src : string)
| Nothing.

Record View : Type := { spinner : bool; body : Body }.

Definition render (s : State) : View :=
  {| spinner := loading s;
     body :=
       if truthy (error s) then ErrorText (narrowed (error s))
       else if negb (String.eqb (finalUrl s) "") then Iframe (finalUrl s)
       else Nothing |}.

(** ** The session as a state machine *)

(** The four session states of the specification, read off what is on
    screen: an error message, else the widget, else the spinner. *)
Inductive SessionState : Type :=
| Idle
| Loading
| Ready (url : string)
| Error (message : string).

Definition sessionState (s : State) : SessionState :=
  match body (render s) with
  | ErrorText m => Error m
  | Iframe u => Ready u
  | Nothing => if spinner (render s) then Loading else Idle
  end.

(** What can happen to a mounted component.  [UserEffect] is a run of the
    effect that depends on [user] (the first one at mount, then one per
    change of identity), taken to its end with the surroundings [h]. *)
Inductive Event : Type :=
| UserEffect (h : Host) (user : option User)
| IframeLoad
| IframeError
| MessageEvent (data : JsValue).

(** The iframe callbacks exist only while the iframe is rendered. *)
Definition dispatch (onClose : option Callback) (s : State) (ev : Event)
  : M unit :=
  match ev with
  | UserEffect h user => buildUrl h user
  | IframeLoad =>
      match body (render s) with Iframe _ => handleIframeLoad | _ => ret tt end
  | IframeError =>
      match body (render s) with Iframe _ => handleIframeError | _ => ret tt end
  | MessageEvent data => handleMessage onClose data
  end.

Definition step (onClose : option Callback) (s : State) (ev : Event) : State :=
  apply_effects s (effects (dispatch onClose s ev)).

Definition run (onClose : option Callback) (s : State) (evs : list Event)
  : State :=
  fold_left (step onClose) evs s.

(** ** Reading a URL back *)

(** The part of [s] before the first [c] (all of it when there is none) and
    the part after it (nothing when there is none). *)
Fixpoint before (c : ascii) (s : string) : string :=
  match s with
  | EmptyString => EmptyString
  | String x r => if Ascii.eqb x c then EmptyString else String x (before c r)
  end.

Fixpoint after (c : ascii) (s : string) : string :=
  match s with
  | EmptyString => EmptyString
  | String x r => if Ascii.eqb x c then r else after c r
  end.

Fixpoint split (c : ascii) (s : string) : list string :=
  match s with
  | EmptyString => [EmptyString]
  | String x r =>
      if Ascii.eqb x c then EmptyString :: split c r
      else match split c r with
           | piece :: pieces => String x piece :: pieces
           | [] => [String x EmptyString]
           end
  end.

Fixpoint contains (c : ascii) (s : string) : bool :=
  match s with
  | EmptyString => false
  | String x r => Ascii.eqb x c || contains c r
  end.

(** The raw query string: what lies between the first [?] and the fragment. *)
Definition queryString (url : string) : string :=
  after "?" (before "#" url).

(** The raw name/value pairs of the query string, in order. *)
Definition queryParams (url : string) : list (string * string) :=
  map (fun kv => (before "=" kv, after "=" kv)) (split "&" (queryString url)).

(** How many pairs of the query string bear the name [name]. *)
Definition occurrences (name url : string) : nat :=
  List.length (filter (fun p => String.eqb (fst p) name) (queryParams url)).

Definition requiredParams : list string :=
  ["widget_id"; "address"; "merchant_transaction_id"; "signature";
   "fiat_currency"; "networks"; "currency"].

(** A value that can be spliced into a query string as it is: it holds
    neither the pair separator nor the fragment mark. *)
Definition delimiterFree (s : string) : bool :=
  negb (contains "&" s) && negb (contains "#" s).

(** The URL for a given signature, as [buildMercuryoWidgetUrl] assembles it. *)
Definition widgetUrl (widgetId address merchantTransactionId signature : string)
  : string :=
  "https://exchange.mercuryo.io/?widget_id=" ++ widgetId
  ++ "&address=" ++ address
  ++ "&merchant_transaction_id=" ++ merchantTransactionId
  ++ "&signature=" ++ encodeURIComponent signature
  ++ "&type=buy" ++ "&fiat_currency=EUR" ++ "&networks=ETHEREUM"
  ++ "&currency=USDC".

(** ** Reference collaborators *)

(** A digest service that answers SHA-512 requests with the lower-case
    hexadecimal digest of the UTF-8 bytes of the data (expo-crypto's default
    encoding) and rejects the algorithms this screen never asks for. *)
Definition sha512Crypto : Crypto :=
  {| digestStringAsync alg data :=
       match alg with
       | SHA512 => Return (sha512hex data)
       | _ => Throw (mkError "Error" "digest algorithm not provided")
       end |}.

(** A digest service without a working primitive. *)
Definition unavailableCrypto : Crypto :=
  {| digestStringAsync _ _ :=
       Throw (mkError "CodedError" "ERR_CRYPTO_UNAVAILABLE") |}.

(** A digest service that meets the contract of SHA-512. *)
Definition implementsSha512 (c : Crypto) : Prop :=
  forall data, digestStringAsync c SHA512 data = Return (sha512hex data).

(** The two completion actions, and the three state setters. *)
Definition completionAction (e : Effect) : bool :=
  match e with
  | call_onClose _ => true
  | router_back => true
  | _ => false
  end.

Definition stateSetter (e : Effect) : bool :=
  match e with
  | setLoading _ | setError _ | setFinalUrl _ => true
  | _ => false
  end.

(** The completion payloads of the specification: an object whose [status]
    is "success" or "failure", or whose [event] is "transaction.success" or
    "transaction.failure". *)
Definition isCompletion (data : JsValue) : bool :=
  match data with
  | JsObject fields =>
      strict_eq_string (lookup_field "status" fields) "success"
      || strict_eq_string (lookup_field "status" fields) "failure"
      || strict_eq_string (lookup_field "event" fields) "transaction.success"
      || strict_eq_string (lookup_field "event" fields) "transaction.failure"
  | _ => false
  end.

(** An event that does not bring an identity. *)
Definition identityAbsent (ev : Event) : bool :=
  match ev with
  | UserEffect _ (Some _) => false
  | _ => true
  end.

(** ** Notions used in the statements *)

(** A digest service too weak to tell inputs of equal length apart. *)
Definition lengthCrypto : Crypto :=
  {| digestStringAsync _ data :=
       Return (hex_of_bytes [Z.of_nat (String.length data) mod 256]) |}.

(** What [handleClose] does, whatever flag it is given. *)
Definition closeEffects (onClose : option Callback) : list Effect :=
  match onClose with
  | Some cb =>
      call_onClose []
      :: match cb_outcome cb with
         | Return _ => []
         | Throw e => [console_error "Error handling Mercuryo message:" e]
         end
  | None => [router_back]
  end.

(** Case analysis on what the two property reads of an object payload
    compare to. *)
Ltac case_payload fields :=
  unfold handleMessage, handleClose, closeEffects, isCompletion;
  cbn -[strict_eq_string lookup_field];
  generalize (lookup_field "status" fields) (lookup_field "event" fields);
  intros status event;
  destruct (strict_eq_string status "success"),
           (strict_eq_string status "failure"),
           (strict_eq_string event "transaction.success"),
           (strict_eq_string event "transaction.failure").

(** The effects of one run of [buildUrl], by the way it ends: waiting for
    an identity, refusing an identity without address, failing, or setting
    a URL. *)
Inductive BuildTrace (h : Host) (user : option User) : list Effect -> Prop :=
| build_waits :
    user = None ->
    BuildTrace h user [setError None; console_log "address" JsUndefined]
| build_no_address u :
    user = Some u -> truthy (safeAddress u) = false ->
    BuildTrace h user
      [setError None; console_log "address" (value_of (safeAddress u));
       setError (Some "No address provided"); setLoading false]
| build_fails u (logged : list Effect) :
    user = Some u -> truthy (safeAddress u) = true ->
    filter stateSetter logged = [] ->
    BuildTrace h user
      ([setError None; console_log "address" (value_of (safeAddress u));
        call_getClientIp]
         ++ logged
         ++ [setError (Some "Failed to initialize widget"); setLoading false])
| build_succeeds u userIp signature :
    user = Some u -> truthy (safeAddress u) = true ->
    getClientIp h = Return userIp ->
    truthy (EXPO_PUBLIC_MERCURYO_WIDGET_ID h) = true ->
    truthy (EXPO_PUBLIC_MERCURYO_WIDGET_SECRET h) = true ->
    createWidgetSignature (crypto h) (narrowed (safeAddress u))
      (narrowed (EXPO_PUBLIC_MERCURYO_WIDGET_SECRET h)) userIp
      (Number_toString (Date_now h)) = Return signature ->
    let url := widgetUrl (narrowed (EXPO_PUBLIC_MERCURYO_WIDGET_ID h))
                 (narrowed (safeAddress u)) (Number_toString (Date_now h))
                 signature in
    BuildTrace h user
      [setError None; console_log "address" (value_of (safeAddress u));
       call_getClientIp; console_log "Built Mercuryo URL:" (JsString url);
       setFinalUrl url].

(** An effect that neither raises the loading flag nor empties the URL. *)
Definition harmless (e : Effect) : bool :=
  match e with
  | setLoading b => negb b
  | setFinalUrl u => negb (String.eqb u "")
  | _ => true
  end.

(** The widget id or the widget secret is unset or empty. *)
Definition configurationMissing (h : Host) : Prop :=
  truthy (EXPO_PUBLIC_MERCURYO_WIDGET_ID h) = false
  \/ truthy (EXPO_PUBLIC_MERCURYO_WIDGET_SECRET h) = false.

(** The client IP is obtained and the signature over it cannot be computed. *)
Definition signatureFails (h : Host) (address : string) : Prop :=
  exists userIp e,
    getClientIp h = Return userIp
    /\ createWidgetSignature (crypto h) address
         (narrowed (EXPO_PUBLIC_MERCURYO_WIDGET_SECRET h)) userIp
         (Number_toString (Date_now h)) = Throw e.

(** Sample surroundings and identities. *)
Definition sampleHost : Host :=
  {| crypto := sha512Crypto;
     Date_now := 1700000000000;
     getClientIp := Return "1.2.3.4";
     EXPO_PUBLIC_MERCURYO_WIDGET_ID := Some "wid";
     EXPO_PUBLIC_MERCURYO_WIDGET_SECRET := Some "s3cr3t" |}.

Definition alice : User := {| safeAddress := Some "0xA11CE" |}.
Definition bob : User := {| safeAddress := Some "0xB0B" |}.

Definition aliceUrl : string :=
  widgetUrl "wid" "0xA11CE" "1700000000000"
    ("v2:" ++ sha512hex "0xA11CEs3cr3t1.2.3.41700000000000").


(** ** The second screen: [BuyCrypto]

    The sibling screen has its own copies of the two exported functions and a
    component of its own.  Its URL carries [theme=exolix] and no [type]; its
    message handler calls [onClose?.()] and has no navigation to fall back
    on; its build effect does not log the address. *)

Module BuyCrypto.

Definition createWidgetSignature (c : Crypto)
  (address secret ip merchantTransactionId : string) : Outcome string :=
  let concatenatedString := address ++ secret ++ ip ++ merchantTransactionId in
  match digestStringAsync c SHA512 concatenatedString with
  | Return hash => Return ("v2:" ++ hash)
  | Throw e => Throw e
  end.

Definition buildMercuryoWidgetUrl (c : Crypto) (now : Z)
  (address widgetId widgetSecret userIp : string) : M string :=
  let merchantTransactionId := Number_toString now in
  try_catch
    (signature <- await (createWidgetSignature c address widgetSecret userIp
                           merchantTransactionId) ;;
     let url := "https://exchange.mercuryo.io/?widget_id=" ++ widgetId in
     let url := url ++ "&address=" ++ address in
     let url := url ++ "&merchant_transaction_id=" ++ merchantTransactionId in
     let url := url ++ "&signature=" ++ encodeURIComponent signature in
     let url := url ++ "&fiat_currency=EUR" in
     let url := url ++ "&networks=ETHEREUM" in
     let url := url ++ "&currency=USDC" in
     let url := url ++ "&theme=exolix" in
     ret url)
    (fun error =>
       perform (console_error "Error generating Mercuryo widget URL:" error) ;;
       throw error).

Section Component.

(** The [onClose] prop.  The message listener is installed anew whenever
    the prop changes, so the handler always sees the current one. *)
Variable onClose : option Callback.

(** [onClose?.()] *)
Definition optional_onClose : M unit :=
  match onClose with
  | Some cb => perform (call_onClose []) ;; eval (cb_outcome cb)
  | None => ret tt
  end.

Definition handleIframeLoad : M unit :=
  perform (setLoading false).

Definition handleIframeError : M unit :=
  perform (setError
             (Some "Failed to load Mercuryo widget. Please try again later.")) ;;
  perform (setLoading false).

Definition handleMessage (data : JsValue) : M unit :=
  perform (console_log "Mercuryo message received:" data) ;;
  try_catch
    (if String.eqb (typeof data) "object" then
       status <- eval (get_prop data "status") ;;
       isSuccess <-
         (if strict_eq_string status "success" then ret true
          else event <- eval (get_prop data "event") ;;
               ret (strict_eq_string event "transaction.success")) ;;
       if (isSuccess : bool) then optional_onClose
       else
         status <- eval (get_prop data "status") ;;
         isFailure <-
           (if strict_eq_string status "failure" then ret true
            else event <- eval (get_prop data "event") ;;
                 ret (strict_eq_string event "transaction.failure")) ;;
         if (isFailure : bool) then optional_onClose else ret tt
     else ret tt)
    (fun err =>
       perform (console_error "Error handling Mercuryo message:" err)).

Definition buildUrl (h : Host) (user : option User) : M unit :=
  perform (setError None) ;;
  let address :=
    match user with Some u => safeAddress u | None => None end in
  match user with
  | None => ret tt
  | Some _ =>
      if negb (truthy address) then
        perform (setError (Some "No address provided")) ;;
        perform (setLoading false)
      else
        try_catch
          (perform call_getClientIp ;;
           userIp <- await (getClientIp h) ;;
           let widgetId := EXPO_PUBLIC_MERCURYO_WIDGET_ID h in
           let widgetSecret := EXPO_PUBLIC_MERCURYO_WIDGET_SECRET h in
           (if negb (truthy widgetId) || negb (truthy widgetSecret) then
              throw (mkError "Error" "Mercuryo widget ID or secret is not set")
            else ret tt) ;;
           widgetUrl <- buildMercuryoWidgetUrl (crypto h) (Date_now h)
                          (narrowed address) (narrowed widgetId)
                          (narrowed widgetSecret) userIp ;;
           perform (console_log "Built Mercuryo URL:" (JsString widgetUrl)) ;;
           perform (setFinalUrl widgetUrl))
          (fun err =>
             perform (console_error "Error building Mercuryo URL:" err) ;;
             perform (setError (Some "Failed to initialize widget")) ;;
             perform (setLoading false))
  end.

End Component.

(** The component returns the same structure as the first screen: the
    spinner while [loading], then the error text, else the iframe. *)
Definition render (s : State) : View :=
  {| spinner := loading s;
     body :=
       if truthy (error s) then ErrorText (narrowed (error s))
       else if negb (String.eqb (finalUrl s) "") then Iframe (finalUrl s)
       else Nothing |}.

Definition dispatch (onClose : option Callback) (s : State) (ev : Event)
  : M unit :=
  match ev with
  | UserEffect h user => buildUrl h user
  | IframeLoad =>
      match body (render s) with Iframe _ => handleIframeLoad | _ => ret tt end
  | IframeError =>
      match body (render s) with Iframe _ => handleIframeError | _ => ret tt end
  | MessageEvent data => handleMessage onClose data
  end.

Definition step (onClose : option Callback) (s : State) (ev : Event) : State :=
  apply_effects s (effects (dispatch onClose s ev)).

Definition run (onClose : option Callback) (s : State) (evs : list Event)
  : State :=
  fold_left (step onClose) evs s.

(** The URL for a given signature, as this screen assembles it. *)
Definition widgetUrl (widgetId address merchantTransactionId signature : string)
  : string :=
  "https://exchange.mercuryo.io/?widget_id=" ++ widgetId
  ++ "&address=" ++ address
  ++ "&merchant_transaction_id=" ++ merchantTransactionId
  ++ "&signature=" ++ encodeURIComponent signature
  ++ "&fiat_currency=EUR" ++ "&networks=ETHEREUM" ++ "&currency=USDC"
  ++ "&theme=exolix".

End BuyCrypto.

(** ** Further notions *)

Definition isMessage (ev : Event) : bool :=
  match ev with
  | MessageEvent _ => true
  | _ => false
  end.

(** The error messages the screens can set. *)
Definition knownError (e : option string) : bool :=
  match e with
  | None => true
  | Some m =>
      existsb (String.eqb m)
        ["No address provided"; "Failed to initialize widget";
         "Failed to load Mercuryo widget. Please try again later."]
  end.

(** The URLs the screens can hold: none yet, or one on the widget endpoint. *)
Definition knownUrl (u : string) : bool :=
  String.eqb u ""
  || String.prefix "https://exchange.mercuryo.io/?widget_id=" u.

(** The part of the query both screens share: widget id, address, transaction
    id and signature. *)
Definition commonUrl (widgetId address merchantTransactionId signature : string)
  : string :=
  "https://exchange.mercuryo.io/?widget_id=" ++ widgetId
  ++ "&address=" ++ address
  ++ "&merchant_transaction_id=" ++ merchantTransactionId
  ++ "&signature=" ++ encodeURIComponent signature.

(** Lower-case hexadecimal text. *)
Definition isLowerHex (c : ascii) : bool :=
  in_range "0" "9" c || in_range "a" "f" c.

Fixpoint allChars (p : ascii -> bool) (s : string) : bool :=
  match s with
  | EmptyString => true
  | String c r => p c && allChars p r
  end.

(** Two states that differ at most in the URL they hold, each being the URL
    its own screen assembles from the same four values. *)
Definition sameScreen (s1 s2 : State) : Prop :=
  loading s1 = loading s2
  /\ error s1 = error s2
  /\ ((finalUrl s1 = "" /\ finalUrl s2 = "")
      \/ exists widgetId address merchantTransactionId signature,
           finalUrl s1
             = widgetUrl widgetId address merchantTransactionId signature
           /\ finalUrl s2
              = BuyCrypto.widgetUrl widgetId address merchantTransactionId
                  signature).

(** * Properties *)

(** ** Strings *)

Lemma append_assoc (x y z : string) : (x ++ y) ++ z = x ++ y ++ z.
Proof. induction x as [|c x IH]; simpl; [reflexivity | now rewrite IH]. Qed.

Lemma contains_app (c : ascii) (x y : string) :
  contains c (x ++ y) = contains c x || contains c y.
Proof.
  induction x as [|a x IH]; simpl; [reflexivity|].
  now rewrite IH, orb_assoc.
Qed.

Lemma before_whole (c : ascii) (s : string) :
  contains c s = false -> before c s = s.
Proof.
  induction s as [|a s IH]; simpl; [reflexivity|].
  intros H. apply orb_false_iff in H as [Ha Hs].
  now rewrite Ha, IH.
Qed.

Lemma split_whole (c : ascii) (s : string) :
  contains c s = false -> split c s = [s].
Proof.
  induction s as [|a s IH]; simpl; [reflexivity|].
  intros H. apply orb_false_iff in H as [Ha Hs].
  now rewrite Ha, IH.
Qed.

Lemma split_app (c : ascii) (x y : string) :
  contains c x = false -> split c (x ++ String c y) = x :: split c y.
Proof.
  induction x as [|a x IH]; simpl.
  - now rewrite Ascii.eqb_refl.
  - intros H. apply orb_false_iff in H as [Ha Hx].
    now rewrite Ha, IH.
Qed.

(** Splitting undoes joining, when no piece holds the separator. *)
Lemma split_concat (c : ascii) (pieces : list string) :
  pieces <> [] ->
  forallb (fun p => negb (contains c p)) pieces = true ->
  split c (String.concat (String c "") pieces) = pieces.
Proof.
  induction pieces as [|p r IH]; [congruence|].
  intros _ H. simpl in H. apply andb_true_iff in H as [Hp Hr].
  apply negb_true_iff in Hp.
  destruct r as [|q r].
  - simpl. now apply split_whole.
  - change (String.concat (String c "") (p :: q :: r))
      with (p ++ String c "" ++ String.concat (String c "") (q :: r)).
    simpl append at 2.
    rewrite split_app by assumption.
    f_equal. apply IH; [congruence | assumption].
Qed.

(** ** Hexadecimal digits and percent-encoding *)

Lemma nibble_cases (d : Z) :
  0 <= d < 16 ->
  In d [0; 1; 2; 3; 4; 5; 6; 7; 8; 9; 10; 11; 12; 13; 14; 15].
Proof.
  intros H. simpl.
  assert (d = 0 \/ d = 1 \/ d = 2 \/ d = 3 \/ d = 4 \/ d = 5 \/ d = 6 \/ d = 7
          \/ d = 8 \/ d = 9 \/ d = 10 \/ d = 11 \/ d = 12 \/ d = 13 \/ d = 14
          \/ d = 15) by lia.
  intuition auto.
Qed.

Lemma upperHexDigit_unescaped (d : Z) :
  0 <= d < 16 -> uriUnescaped (upperHexDigit d) = true.
Proof.
  intros H. apply nibble_cases in H. simpl in H.
  repeat (destruct H as [<- | H]; [reflexivity|]). contradiction.
Qed.

Lemma unescaped_differs (x c : ascii) :
  uriUnescaped x = true -> uriUnescaped c = false -> Ascii.eqb x c = false.
Proof.
  intros Hx Hc. destruct (Ascii.eqb_spec x c) as [->|]; congruence.
Qed.

Lemma percentEscape_free (c x : ascii) :
  uriUnescaped c = false -> c <> "%"%char ->
  contains c (percentEscape x) = false.
Proof.
  intros Hc Hp.
  assert (Hd : forall b, Ascii.eqb (upperHexDigit (b mod 16)) c = false).
  { intros b. apply unescaped_differs; [|assumption].
    apply upperHexDigit_unescaped, Z.mod_pos_bound. lia. }
  unfold percentEscape. cbn [contains]. rewrite !Hd.
  destruct (Ascii.eqb_spec "%"%char c); [congruence | reflexivity].
Qed.

(** A character that [encodeURIComponent] escapes, other than the percent
    sign itself, never occurs in its output. *)
Lemma encodeURIComponent_free (c : ascii) (s : string) :
  uriUnescaped c = false -> c <> "%"%char ->
  contains c (encodeURIComponent s) = false.
Proof.
  intros Hc Hp. induction s as [|x s IH]; [reflexivity|].
  cbn [encodeURIComponent].
  destruct (uriUnescaped x) eqn:Hx.
  - cbn [contains]. now rewrite (unescaped_differs x c Hx Hc).
  - now rewrite contains_app, percentEscape_free, IH.
Qed.

(** ** Decimal rendering *)

Lemma uint_digits_free (c : ascii) (d : Decimal.uint) :
  c = "&"%char \/ c = "#"%char ->
  contains c (NilEmpty.string_of_uint d) = false.
Proof.
  intros [-> | ->]; induction d; simpl; auto.
Qed.

Lemma Number_toString_free (c : ascii) (n : Z) :
  c = "&"%char \/ c = "#"%char -> contains c (Number_toString n) = false.
Proof.
  intros Hc. unfold Number_toString.
  destruct (Z.to_int n) as [d | d]; simpl.
  - destruct d; try apply (uint_digits_free c _ Hc).
    destruct Hc as [-> | ->]; reflexivity.
  - assert (H : contains c (NilZero.string_of_uint d) = false).
    { destruct d; try apply (uint_digits_free c _ Hc).
      destruct Hc as [-> | ->]; reflexivity. }
    rewrite H. destruct Hc as [-> | ->]; reflexivity.
Qed.

Lemma Number_toString_delimiterFree (n : Z) :
  delimiterFree (Number_toString n) = true.
Proof.
  unfold delimiterFree.
  now rewrite !Number_toString_free by auto.
Qed.

(** ** The signature *)

Lemma sha512Crypto_implementsSha512 : implementsSha512 sha512Crypto.
Proof. intros data. reflexivity. Qed.

Lemma createWidgetSignature_digest (c : Crypto)
  (address secret ip merchantTransactionId hash : string) :
  digestStringAsync c SHA512 (address ++ secret ++ ip ++ merchantTransactionId)
    = Return hash ->
  createWidgetSignature c address secret ip merchantTransactionId
    = Return ("v2:" ++ hash).
Proof. intros H. unfold createWidgetSignature. now rewrite H. Qed.

(** C1: with a digest service that computes SHA-512, [createWidgetSignature]
    returns "v2:" followed by the hexadecimal SHA-512 digest of the UTF-8
    bytes of address, secret, client IP and merchant transaction id joined in
    that order without a delimiter; the result is determined by the four
    fields. *)
Theorem createWidgetSignature_spec (c : Crypto)
  (address secret ip merchantTransactionId : string) :
  implementsSha512 c ->
  createWidgetSignature c address secret ip merchantTransactionId
    = Return ("v2:" ++
              hex_of_bytes
                (SHA512.digest
                   (bytes_of_string
                      (address ++ secret ++ ip ++ merchantTransactionId))))
  /\ (forall address' secret' ip' merchantTransactionId',
         (address', secret', ip', merchantTransactionId')
           = (address, secret, ip, merchantTransactionId) ->
         createWidgetSignature c address' secret' ip' merchantTransactionId'
           = createWidgetSignature c address secret ip merchantTransactionId).
Proof.
  intros Hc. split.
  - apply createWidgetSignature_digest. apply Hc.
  - intros a' s' i' m' E. now inversion E.
Qed.

(** The fixture of the specification. *)
Lemma createWidgetSignature_spec_witness :
  implementsSha512 sha512Crypto
  /\ createWidgetSignature sha512Crypto "0xABC" "s3cr3t" "1.2.3.4"
       "1700000000000"
     = Return "v2:a9d364611ea0d67dd5f6a1f9866a9f566b809825bf5ce690fb6d0e2687b25c979544b98e786adaa629c89973ed476222dd3724577103de0610fc891c6d09b22b".
Proof.
  split; [exact sha512Crypto_implementsSha512|].
  rewrite (proj1 (createWidgetSignature_spec sha512Crypto "0xABC" "s3cr3t"
                    "1.2.3.4" "1700000000000" sha512Crypto_implementsSha512)).
  vm_compute. reflexivity.
Defined.

(** C4, as the specification has it, fails: an empty address is accepted
    and signed. *)
Lemma createWidgetSignature_accepts_empty_field :
  createWidgetSignature sha512Crypto "" "s3cr3t" "1.2.3.4" "1700000000000"
    = Return ("v2:" ++ sha512hex "s3cr3t1.2.3.41700000000000")
  /\ ~ (exists e,
          createWidgetSignature sha512Crypto "" "s3cr3t" "1.2.3.4"
            "1700000000000" = Throw e).
Proof.
  split; [reflexivity|].
  intros [e H]. discriminate H.
Qed.

(** C4, amended: [createWidgetSignature] does not inspect its fields.
    Whatever the four strings, empty ones included, it fails exactly when
    the digest primitive fails on their concatenation, with the same error;
    and it returns a signature exactly when the primitive returns a digest. *)
Theorem createWidgetSignature_fails_only_with_digest (c : Crypto)
  (address secret ip merchantTransactionId : string) :
  (forall e,
      createWidgetSignature c address secret ip merchantTransactionId = Throw e
      <-> digestStringAsync c SHA512
            (address ++ secret ++ ip ++ merchantTransactionId) = Throw e)
  /\ (forall signature,
         createWidgetSignature c address secret ip merchantTransactionId
           = Return signature
         <-> exists hash,
               digestStringAsync c SHA512
                 (address ++ secret ++ ip ++ merchantTransactionId)
                 = Return hash
               /\ signature = "v2:" ++ hash).
Proof.
  unfold createWidgetSignature.
  destruct (digestStringAsync c SHA512 _) as [hash | e0]; split.
  - intros e. split; discriminate.
  - intros sig. split.
    + intros [= <-]. now exists hash.
    + intros [h [[= <-] ->]]. reflexivity.
  - intros e. split; intros [= <-]; reflexivity.
  - intros sig. split; [discriminate|]. intros [h [H _]]. discriminate H.
Qed.

(** ** The URL *)

Lemma buildMercuryoWidgetUrl_factors (c : Crypto) (now : Z)
  (address widgetId widgetSecret userIp : string) :
  buildMercuryoWidgetUrl c now address widgetId widgetSecret userIp
  = match createWidgetSignature c address widgetSecret userIp
            (Number_toString now) with
    | Return signature =>
        ([], Return (widgetUrl widgetId address (Number_toString now)
                       signature))
    | Throw e =>
        ([console_error "Error generating Mercuryo widget URL:" e], Throw e)
    end.
Proof.
  unfold buildMercuryoWidgetUrl.
  destruct (createWidgetSignature c address widgetSecret userIp _)
    as [signature | e]; [|reflexivity].
  unfold widgetUrl, try_catch, bind, await, ret.
  cbn [app]. repeat rewrite append_assoc. reflexivity.
Qed.

(** C6: the widget secret reaches the URL through the signature only.  Two
    calls that differ in the secret alone and obtain the same signature give
    the same result, URL and log alike; and the URL returned is the one
    assembled from the widget id, the address, the transaction id and the
    signature, with no place for the secret itself. *)
Theorem buildMercuryoWidgetUrl_secret_only_through_signature (c : Crypto)
  (now : Z) (address widgetId userIp secret1 secret2 : string) :
  createWidgetSignature c address secret1 userIp (Number_toString now)
    = createWidgetSignature c address secret2 userIp (Number_toString now) ->
  buildMercuryoWidgetUrl c now address widgetId secret1 userIp
    = buildMercuryoWidgetUrl c now address widgetId secret2 userIp
  /\ (forall url,
         outcome (buildMercuryoWidgetUrl c now address widgetId secret1 userIp)
           = Return url ->
         exists signature,
           createWidgetSignature c address secret1 userIp (Number_toString now)
             = Return signature
           /\ url = widgetUrl widgetId address (Number_toString now) signature).
Proof.
  intros H. rewrite !buildMercuryoWidgetUrl_factors. split; [now rewrite H|].
  intros url.
  destruct (createWidgetSignature c address secret1 userIp _) as [sig|e];
    [|discriminate].
  intros [= <-]. now exists sig.
Qed.

Lemma buildMercuryoWidgetUrl_secret_only_through_signature_witness :
  "alpha" <> "bravo"
  /\ buildMercuryoWidgetUrl lengthCrypto 1700000000000 "0xABC" "wid" "alpha"
       "1.2.3.4"
     = buildMercuryoWidgetUrl lengthCrypto 1700000000000 "0xABC" "wid" "bravo"
         "1.2.3.4".
Proof.
  split; [discriminate|].
  apply (buildMercuryoWidgetUrl_secret_only_through_signature lengthCrypto
           1700000000000 "0xABC" "wid" "1.2.3.4" "alpha" "bravo").
  reflexivity.
Defined.


Lemma encoded_delimiterFree (s : string) :
  delimiterFree (encodeURIComponent s) = true.
Proof.
  unfold delimiterFree.
  now rewrite !encodeURIComponent_free by (reflexivity || discriminate).
Qed.

Lemma delimiterFree_parts (s : string) :
  delimiterFree s = true -> contains "&" s = false /\ contains "#" s = false.
Proof.
  unfold delimiterFree. intros H.
  apply andb_true_iff in H as [H1 H2].
  now apply negb_true_iff in H1, H2.
Qed.





(** ** The completion handshake *)

Lemma handleClose_flag (onClose : option Callback) (success : bool) :
  handleClose onClose success = handleClose onClose false.
Proof. reflexivity. Qed.

Lemma handleMessage_shape (onClose : option Callback) (data : JsValue) :
  handleMessage onClose data
  = (console_log "Mercuryo message received:" data
       :: match data with
          | JsNull =>
              [console_error "Error handling Mercuryo message:"
                 (mkError "TypeError"
                    "Cannot read properties of null (reading 'status')")]
          | _ => if isCompletion data then closeEffects onClose else []
          end,
     Return tt).
Proof.
  destruct data as [ | | b | n | s | fields | items]; try reflexivity.
  case_payload fields;
    destruct onClose as [[[[]|e]]|]; reflexivity.
Qed.

Lemma closeEffects_completions (onClose : option Callback) :
  filter completionAction (closeEffects onClose)
  = [match onClose with Some _ => call_onClose [] | None => router_back end].
Proof. destruct onClose as [[[[]|e]]|]; reflexivity. Qed.

Lemma closeEffects_state (onClose : option Callback) (s : State) :
  apply_effects s (closeEffects onClose) = s
  /\ filter stateSetter (closeEffects onClose) = [].
Proof. destruct s, onClose as [[[[]|e]]|]; split; reflexivity. Qed.

Lemma handleMessage_state (onClose : option Callback) (data : JsValue)
  (s : State) :
  apply_effects s (effects (handleMessage onClose data)) = s.
Proof.
  rewrite handleMessage_shape. unfold effects, fst.
  destruct data; try (destruct s; reflexivity).
  cbn [apply_effects fold_left apply_effect].
  destruct (isCompletion _); [apply closeEffects_state | reflexivity].
Qed.

(** C3: whatever message arrives, the handler returns normally and sets no
    state; it performs the completion action (the [onClose] callback when
    there is one, a navigation back otherwise) exactly once when the payload
    is a completion payload, and not at all otherwise. *)
Theorem handleMessage_completion_exactly_once (onClose : option Callback)
  (data : JsValue) :
  outcome (handleMessage onClose data) = Return tt
  /\ filter completionAction (effects (handleMessage onClose data))
     = (if isCompletion data
        then [match onClose with
              | Some _ => call_onClose []
              | None => router_back
              end]
        else [])
  /\ filter stateSetter (effects (handleMessage onClose data)) = []
  /\ (forall s, apply_effects s (effects (handleMessage onClose data)) = s).
Proof.
  split; [|split; [|split]].
  - now rewrite handleMessage_shape.
  - rewrite handleMessage_shape. unfold effects, fst.
    destruct data; try reflexivity.
    cbn [filter completionAction].
    destruct (isCompletion _); [apply closeEffects_completions | reflexivity].
  - rewrite handleMessage_shape. unfold effects, fst.
    destruct data; try reflexivity.
    cbn [filter stateSetter].
    destruct (isCompletion _);
      [apply (closeEffects_state onClose initialState) | reflexivity].
  - apply handleMessage_state.
Qed.

(** The three payloads the specification names. *)
Example handleMessage_status_success :
  effects (handleMessage None (JsObject [("status", JsString "success")]))
  = [console_log "Mercuryo message received:"
       (JsObject [("status", JsString "success")]);
     router_back].
Proof. reflexivity. Qed.

Example handleMessage_status_failure (cb : Callback) :
  filter completionAction
    (effects (handleMessage (Some cb)
                (JsObject [("status", JsString "failure")])))
  = [call_onClose []].
Proof. destruct cb as [[[]|e]]; reflexivity. Qed.

Example handleMessage_foo_bar (onClose : option Callback) :
  effects (handleMessage onClose (JsObject [("foo", JsString "bar")]))
  = [console_log "Mercuryo message received:"
       (JsObject [("foo", JsString "bar")])].
Proof. reflexivity. Qed.

(** C10: the callback is called without arguments and the success flag is
    dropped: [handleClose] does the same for [true] and [false], and any two
    completion messages, of success or of failure, lead to the same effects
    after the log of the payload, among them one call of [onClose] with no
    argument. *)
Theorem completion_outcome_not_passed_on (cb : Callback)
  (data1 data2 : JsValue) :
  isCompletion data1 = true ->
  isCompletion data2 = true ->
  handleClose (Some cb) true = handleClose (Some cb) false
  /\ tl (effects (handleMessage (Some cb) data1))
     = tl (effects (handleMessage (Some cb) data2))
  /\ tl (effects (handleMessage (Some cb) data1)) = closeEffects (Some cb)
  /\ filter completionAction (effects (handleMessage (Some cb) data1))
     = [call_onClose []].
Proof.
  intros H1 H2.
  assert (E : forall d, isCompletion d = true ->
                tl (effects (handleMessage (Some cb) d))
                = closeEffects (Some cb)).
  { intros d Hd. rewrite handleMessage_shape. unfold effects, fst, tl.
    destruct d; try discriminate Hd. now rewrite Hd. }
  split; [now rewrite handleClose_flag|].
  split; [now rewrite !E|]. split; [now apply E|].
  rewrite handleMessage_shape. unfold effects, fst.
  destruct data1; try discriminate H1. rewrite H1.
  cbn [filter completionAction]. apply closeEffects_completions.
Qed.

Lemma completion_outcome_not_passed_on_witness :
  tl (effects (handleMessage (Some {| cb_outcome := Return tt |})
                 (JsObject [("status", JsString "success")])))
  = tl (effects (handleMessage (Some {| cb_outcome := Return tt |})
                   (JsObject [("event", JsString "transaction.failure")]))).
Proof.
  apply (completion_outcome_not_passed_on {| cb_outcome := Return tt |}
           (JsObject [("status", JsString "success")])
           (JsObject [("event", JsString "transaction.failure")]));
    reflexivity.
Defined.

(** ** The session *)

Lemma sessionState_Loading (s : State) :
  sessionState s = Loading ->
  loading s = true /\ truthy (error s) = false /\ finalUrl s = "".
Proof.
  unfold sessionState, render; cbn [body spinner].
  destruct (truthy (error s)); [discriminate|].
  destruct (String.eqb_spec (finalUrl s) ""); cbn [negb]; [|discriminate].
  destruct (loading s); [auto | discriminate].
Qed.

Lemma sessionState_Ready (s : State) (u : string) :
  sessionState s = Ready u ->
  truthy (error s) = false /\ finalUrl s = u /\ u <> "".
Proof.
  unfold sessionState, render; cbn [body spinner].
  destruct (truthy (error s)); [discriminate|].
  destruct (String.eqb_spec (finalUrl s) ""); cbn [negb].
  - destruct (loading s); discriminate.
  - intros [= <-]. auto.
Qed.

Lemma sessionState_url (l : bool) (u : string) :
  u <> "" ->
  sessionState {| loading := l; error := None; finalUrl := u |} = Ready u.
Proof.
  intros Hu. unfold sessionState, render; cbn [body spinner error truthy finalUrl].
  destruct (String.eqb_spec u ""); [contradiction | reflexivity].
Qed.

Lemma buildUrl_returns (h : Host) (user : option User) :
  outcome (buildUrl h user) = Return tt.
Proof.
  unfold buildUrl. destruct user as [u|]; [|reflexivity].
  destruct (truthy (safeAddress u)); [|reflexivity].
  destruct (getClientIp h) as [ip|e]; [|reflexivity].
  destruct (truthy (EXPO_PUBLIC_MERCURYO_WIDGET_ID h)),
           (truthy (EXPO_PUBLIC_MERCURYO_WIDGET_SECRET h));
    try reflexivity.
  cbn -[buildMercuryoWidgetUrl]. rewrite buildMercuryoWidgetUrl_factors.
  destruct (createWidgetSignature _ _ _ _ _); reflexivity.
Qed.

Lemma buildUrl_trace (h : Host) (user : option User) :
  BuildTrace h user (effects (buildUrl h user)).
Proof.
  unfold buildUrl. destruct user as [u|]; [|now apply build_waits].
  destruct (truthy (safeAddress u)) eqn:Ha;
    [|now apply (build_no_address h (Some u) u)].
  destruct (getClientIp h) as [ip|e] eqn:Hip.
  - destruct (truthy (EXPO_PUBLIC_MERCURYO_WIDGET_ID h)) eqn:Hw;
    destruct (truthy (EXPO_PUBLIC_MERCURYO_WIDGET_SECRET h)) eqn:Hs;
      try (apply (build_fails h (Some u) u [console_error _ _]);
           [reflexivity | assumption | reflexivity]).
    cbn -[buildMercuryoWidgetUrl]. rewrite buildMercuryoWidgetUrl_factors.
    destruct (createWidgetSignature _ _ _ _ _) as [sig|e] eqn:Hsig.
    + now apply (build_succeeds h (Some u) u ip sig).
    + apply (build_fails h (Some u) u
               [console_error _ _; console_error _ _]);
        [reflexivity | assumption | reflexivity].
  - apply (build_fails h (Some u) u [console_error _ _]);
      [reflexivity | assumption | reflexivity].
Qed.

Lemma apply_effects_app (s : State) (t1 t2 : list Effect) :
  apply_effects s (t1 ++ t2) = apply_effects (apply_effects s t1) t2.
Proof. apply fold_left_app. Qed.

Lemma apply_effects_no_setter (t : list Effect) (s : State) :
  filter stateSetter t = [] -> apply_effects s t = s.
Proof.
  revert s. induction t as [|e t IH]; intros s H; [reflexivity|].
  cbn [filter] in H. destruct e; try discriminate H;
    cbn [apply_effects fold_left apply_effect]; now apply IH.
Qed.

Lemma no_setter_harmless (t : list Effect) :
  filter stateSetter t = [] -> forallb harmless t = true.
Proof.
  induction t as [|e t IH]; intros H; [reflexivity|].
  cbn [filter] in H. destruct e; try discriminate H; cbn; now apply IH.
Qed.


(** The rebuild never raises the loading flag and never empties the URL. *)
Lemma buildUrl_harmless (h : Host) (user : option User) :
  forallb harmless (effects (buildUrl h user)) = true.
Proof.
  destruct (buildUrl_trace h user) as [ | u _ _ | u logged _ _ Hl | ];
    try reflexivity.
  rewrite !forallb_app, (no_setter_harmless _ Hl). reflexivity.
Qed.

Lemma harmless_prefix (t : list Effect) :
  forallb harmless t = true ->
  forall (s : State) (n : nat),
    finalUrl s <> "" ->
    finalUrl (apply_effects s (firstn n t)) <> ""
    /\ (loading (apply_effects s (firstn n t)) = true -> loading s = true).
Proof.
  induction t as [|e t IH]; intros H s n Hs.
  - rewrite firstn_nil. auto.
  - destruct n as [|n]; [cbn; auto|].
    cbn [forallb] in H. apply andb_true_iff in H as [He Ht].
    cbn [firstn apply_effects fold_left].
    change (fold_left apply_effect (firstn n t) (apply_effect s e))
      with (apply_effects (apply_effect s e) (firstn n t)).
    assert (Hs' : finalUrl (apply_effect s e) <> ""
                  /\ (loading (apply_effect s e) = true -> loading s = true)).
    { destruct e; cbn in *; auto.
      - destruct b; [discriminate | split; [assumption | discriminate]].
      - split; [|auto]. destruct (String.eqb_spec u ""); [discriminate | auto]. }
    destruct Hs' as [Hu Hl].
    destruct (IH Ht (apply_effect s e) n Hu) as [IH1 IH2]. auto.
Qed.

(** ** The session: identity absent (C7) *)

Lemma step_without_identity (onClose : option Callback) (ev : Event) :
  identityAbsent ev = true -> step onClose initialState ev = initialState.
Proof.
  destruct ev as [h [u|] | | | data]; try discriminate; intros _;
    try reflexivity.
  unfold step, dispatch. apply handleMessage_state.
Qed.

(** C7: as long as every run of the build effect finds no identity, the
    session stays as it was at mount, in [Loading], whatever messages and
    iframe events come in between; and a run without identity never leaves
    an error behind, from any state. *)
Theorem session_without_identity_stays_Loading (onClose : option Callback)
  (evs : list Event) :
  forallb identityAbsent evs = true ->
  run onClose initialState evs = initialState
  /\ sessionState (run onClose initialState evs) = Loading
  /\ (forall s h message,
         sessionState (step onClose s (UserEffect h None)) <> Error message).
Proof.
  intros H.
  assert (E : run onClose initialState evs = initialState).
  { unfold run. induction evs as [|ev evs IH]; [reflexivity|].
    cbn [forallb] in H. apply andb_true_iff in H as [Hev Hevs].
    cbn [fold_left]. rewrite step_without_identity by assumption.
    now apply IH. }
  split; [exact E|]. split; [now rewrite E|].
  intros s h message. unfold step, dispatch, sessionState, render.
  cbn. destruct (negb (String.eqb (finalUrl s) "")); [discriminate|].
  destruct (loading s); discriminate.
Qed.

Lemma session_without_identity_stays_Loading_witness :
  sessionState
    (run None initialState
       [ UserEffect sampleHost None;
         MessageEvent (JsObject [("foo", JsString "bar")]);
         IframeLoad;
         MessageEvent (JsObject [("status", JsString "success")]);
         IframeError;
         UserEffect sampleHost None ]) = Loading.
Proof.
  apply (session_without_identity_stays_Loading None
           [ UserEffect sampleHost None;
             MessageEvent (JsObject [("foo", JsString "bar")]);
             IframeLoad;
             MessageEvent (JsObject [("status", JsString "success")]);
             IframeError;
             UserEffect sampleHost None ]).
  reflexivity.
Defined.

(** ** The session: identity without address (C8) *)

(** C8: when the identity has no [safeAddress], a session in [Loading]
    moves to [Error] with the message "No address provided"; the run asks
    for no client IP and sets no URL. *)
Theorem buildUrl_without_address (onClose : option Callback) (h : Host)
  (u : User) (s : State) :
  safeAddress u = None ->
  sessionState s = Loading ->
  buildUrl h (Some u)
    = ([setError None; console_log "address" JsUndefined;
        setError (Some "No address provided"); setLoading false],
       Return tt)
  /\ sessionState (step onClose s (UserEffect h (Some u)))
     = Error "No address provided"
  /\ finalUrl (step onClose s (UserEffect h (Some u))) = "".
Proof.
  intros Hu Hs. apply sessionState_Loading in Hs as (_ & _ & Hurl).
  assert (E : buildUrl h (Some u)
              = ([setError None; console_log "address" JsUndefined;
                  setError (Some "No address provided"); setLoading false],
                 Return tt)).
  { unfold buildUrl. rewrite Hu. reflexivity. }
  split; [exact E|].
  unfold step, dispatch. rewrite E. cbn. rewrite Hurl. split; reflexivity.
Qed.

Lemma buildUrl_without_address_witness :
  sessionState
    (step None initialState (UserEffect sampleHost (Some {| safeAddress := None |})))
  = Error "No address provided".
Proof.
  apply (buildUrl_without_address None sampleHost {| safeAddress := None |}
           initialState); reflexivity.
Defined.

(** ** The session: failing builds (C9) *)

(** C9: for an identity with an address, when the widget id or the widget
    secret is missing from the configuration, or the signature cannot be
    computed, the failure of the signature is the failure of
    [buildMercuryoWidgetUrl], and the session ends in [Error] with the
    message "Failed to initialize widget": the error text is what is
    rendered, not the iframe, and no URL has been set. *)
Theorem buildUrl_failure_ends_in_Error (onClose : option Callback) (h : Host)
  (u : User) (s : State) :
  truthy (safeAddress u) = true ->
  configurationMissing h \/ signatureFails h (narrowed (safeAddress u)) ->
  let s' := step onClose s (UserEffect h (Some u)) in
  sessionState s' = Error "Failed to initialize widget"
  /\ body (render s') = ErrorText "Failed to initialize widget"
  /\ loading s' = false
  /\ finalUrl s' = finalUrl s
  /\ (forall widgetId userIp e,
         createWidgetSignature (crypto h) (narrowed (safeAddress u))
           (narrowed (EXPO_PUBLIC_MERCURYO_WIDGET_SECRET h)) userIp
           (Number_toString (Date_now h)) = Throw e ->
         outcome (buildMercuryoWidgetUrl (crypto h) (Date_now h)
                    (narrowed (safeAddress u)) widgetId
                    (narrowed (EXPO_PUBLIC_MERCURYO_WIDGET_SECRET h)) userIp)
         = Throw e).
Proof.
  intros Ha Hfail s'.
  assert (E : s' = {| loading := false;
                      error := Some "Failed to initialize widget";
                      finalUrl := finalUrl s |}).
  { subst s'. unfold step, dispatch.
    destruct (buildUrl_trace h (Some u))
      as [Hn | u' Hu Hna | u' logged Hu _ Hl
          | u' ip sig Hu _ Hip Hw Hs Hsig url].
    - discriminate Hn.
    - injection Hu as <-. congruence.
    - rewrite !apply_effects_app, (apply_effects_no_setter _ _ Hl).
      reflexivity.
    - injection Hu as <-. exfalso.
      destruct Hfail as [[Hw' | Hs'] | (ip' & e & Hip' & Hsig')];
        congruence. }
  rewrite E. split; [|split; [|split; [|split]]]; try reflexivity.
  intros widgetId userIp e Hsig.
  rewrite buildMercuryoWidgetUrl_factors, Hsig. reflexivity.
Qed.

Lemma buildUrl_failure_ends_in_Error_witness :
  sessionState
    (step None initialState
       (UserEffect
          {| crypto := unavailableCrypto;
             Date_now := 1700000000000;
             getClientIp := Return "1.2.3.4";
             EXPO_PUBLIC_MERCURYO_WIDGET_ID := Some "wid";
             EXPO_PUBLIC_MERCURYO_WIDGET_SECRET := Some "s3cr3t" |}
          (Some alice)))
  = Error "Failed to initialize widget"
  /\ sessionState
       (step None initialState
          (UserEffect
             {| crypto := sha512Crypto;
                Date_now := 1700000000000;
                getClientIp := Return "1.2.3.4";
                EXPO_PUBLIC_MERCURYO_WIDGET_ID := Some "wid";
                EXPO_PUBLIC_MERCURYO_WIDGET_SECRET := None |}
             (Some alice)))
     = Error "Failed to initialize widget".
Proof.
  split.
  - apply (buildUrl_failure_ends_in_Error None
             {| crypto := unavailableCrypto;
                Date_now := 1700000000000;
                getClientIp := Return "1.2.3.4";
                EXPO_PUBLIC_MERCURYO_WIDGET_ID := Some "wid";
                EXPO_PUBLIC_MERCURYO_WIDGET_SECRET := Some "s3cr3t" |}
             alice initialState); [reflexivity|].
    right. exists "1.2.3.4", (mkError "CodedError" "ERR_CRYPTO_UNAVAILABLE").
    split; reflexivity.
  - apply (buildUrl_failure_ends_in_Error None
             {| crypto := sha512Crypto;
                Date_now := 1700000000000;
                getClientIp := Return "1.2.3.4";
                EXPO_PUBLIC_MERCURYO_WIDGET_ID := Some "wid";
                EXPO_PUBLIC_MERCURYO_WIDGET_SECRET := None |}
             alice initialState); [reflexivity|].
    left. right. reflexivity.
Defined.

(** ** The session: a change of identity once [Ready] (C5) *)




(** * Further properties of the first screen *)

(** ** Builds that succeed *)

Lemma buildUrl_success_effects (h : Host) (u : User)
  (userIp signature : string) :
  truthy (safeAddress u) = true ->
  getClientIp h = Return userIp ->
  truthy (EXPO_PUBLIC_MERCURYO_WIDGET_ID h) = true ->
  truthy (EXPO_PUBLIC_MERCURYO_WIDGET_SECRET h) = true ->
  createWidgetSignature (crypto h) (narrowed (safeAddress u))
    (narrowed (EXPO_PUBLIC_MERCURYO_WIDGET_SECRET h)) userIp
    (Number_toString (Date_now h)) = Return signature ->
  effects (buildUrl h (Some u))
  = [ setError None;
      console_log "address" (value_of (safeAddress u));
      call_getClientIp;
      console_log "Built Mercuryo URL:"
        (JsString (widgetUrl (narrowed (EXPO_PUBLIC_MERCURYO_WIDGET_ID h))
                     (narrowed (safeAddress u))
                     (Number_toString (Date_now h)) signature));
      setFinalUrl (widgetUrl (narrowed (EXPO_PUBLIC_MERCURYO_WIDGET_ID h))
                     (narrowed (safeAddress u))
                     (Number_toString (Date_now h)) signature) ].
Proof.
  intros Ha Hip Hw Hs Hsig. unfold buildUrl. cbv beta iota zeta.
  rewrite Ha, Hip, Hw, Hs.
  cbn -[buildMercuryoWidgetUrl]. rewrite buildMercuryoWidgetUrl_factors, Hsig.
  reflexivity.
Qed.

(** X1: a build that succeeds puts the URL in place and clears the error,
    but leaves the loading flag as it was: from the state at mount the
    spinner and the iframe are on screen together, and it is the load event
    of the iframe that takes the spinner away. *)
Theorem build_then_load_shows_widget (onClose : option Callback) (h : Host)
  (u : User) (userIp signature : string) (s : State) :
  truthy (safeAddress u) = true ->
  getClientIp h = Return userIp ->
  truthy (EXPO_PUBLIC_MERCURYO_WIDGET_ID h) = true ->
  truthy (EXPO_PUBLIC_MERCURYO_WIDGET_SECRET h) = true ->
  createWidgetSignature (crypto h) (narrowed (safeAddress u))
    (narrowed (EXPO_PUBLIC_MERCURYO_WIDGET_SECRET h)) userIp
    (Number_toString (Date_now h)) = Return signature ->
  let url := widgetUrl (narrowed (EXPO_PUBLIC_MERCURYO_WIDGET_ID h))
               (narrowed (safeAddress u)) (Number_toString (Date_now h))
               signature in
  step onClose s (UserEffect h (Some u))
  = {| loading := loading s; error := None; finalUrl := url |}
  /\ render (step onClose initialState (UserEffect h (Some u)))
     = {| spinner := true; body := Iframe url |}
  /\ run onClose initialState [UserEffect h (Some u); IframeLoad]
     = {| loading := false; error := None; finalUrl := url |}
  /\ render (run onClose initialState [UserEffect h (Some u); IframeLoad])
     = {| spinner := false; body := Iframe url |}.
Proof.
  intros Ha Hip Hw Hs Hsig url.
  assert (E : forall s0, step onClose s0 (UserEffect h (Some u))
                = {| loading := loading s0; error := None; finalUrl := url |}).
  { intros s0. unfold step, dispatch.
    rewrite (buildUrl_success_effects h u userIp signature) by assumption.
    reflexivity. }
  split; [apply E|].
  unfold run. cbn [fold_left]. rewrite E.
  repeat split; reflexivity.
Qed.

Lemma build_then_load_shows_widget_witness :
  run None initialState [UserEffect sampleHost (Some alice); IframeLoad]
  = {| loading := false; error := None; finalUrl := aliceUrl |}.
Proof.
  apply (build_then_load_shows_widget None sampleHost alice "1.2.3.4"
           ("v2:" ++ sha512hex "0xA11CEs3cr3t1.2.3.41700000000000")
           initialState);
    reflexivity.
Defined.

(** ** The iframe callbacks *)

Lemma iframe_rendered (s : State) (u : string) :
  sessionState s = Ready u -> body (render s) = Iframe u.
Proof.
  unfold sessionState. destruct (body (render s)); try discriminate.
  - now intros [= ->].
  - destruct (spinner (render s)); discriminate.
Qed.

(** X2: when the iframe on screen reports an error, the session is in
    [Error] with the load-failure message and the iframe is gone, URL kept
    in the state; from there neither further iframe events nor messages
    change anything, and a rerun of the user effect without identity clears
    the message and brings the iframe back with the same URL. *)
Theorem iframe_error_hides_widget (onClose : option Callback) (s : State)
  (u : string) (h : Host) (data : JsValue) :
  sessionState s = Ready u ->
  let failed := step onClose s IframeError in
  failed
  = {| loading := false;
       error := Some "Failed to load Mercuryo widget. Please try again later.";
       finalUrl := u |}
  /\ render failed
     = {| spinner := false;
          body := ErrorText
                    "Failed to load Mercuryo widget. Please try again later." |}
  /\ step onClose failed IframeLoad = failed
  /\ step onClose failed IframeError = failed
  /\ step onClose failed (MessageEvent data) = failed
  /\ sessionState (step onClose failed (UserEffect h None)) = Ready u.
Proof.
  intros Hs failed.
  assert (E : failed
              = {| loading := false;
                   error := Some
                     "Failed to load Mercuryo widget. Please try again later.";
                   finalUrl := u |}).
  { subst failed. unfold step, dispatch. rewrite (iframe_rendered s u Hs).
    apply sessionState_Ready in Hs as (_ & <- & _). reflexivity. }
  apply sessionState_Ready in Hs as (_ & _ & Hne).
  rewrite E. split; [reflexivity|]. split; [reflexivity|].
  split; [reflexivity|]. split; [reflexivity|].
  split; [apply handleMessage_state|].
  unfold step, dispatch. cbn. now apply sessionState_url.
Qed.

Lemma iframe_error_hides_widget_witness :
  sessionState
    (step None
       (step None
          (run None initialState [UserEffect sampleHost (Some alice)])
          IframeError)
       (UserEffect sampleHost None))
  = Ready aliceUrl.
Proof.
  apply (iframe_error_hides_widget None
           (run None initialState [UserEffect sampleHost (Some alice)])
           aliceUrl sampleHost JsNull).
  vm_compute. reflexivity.
Defined.

(** ** Builds that fail before the URL builder *)

(** X3: when the client IP cannot be obtained, the build stops there: the
    rejection is logged once by the component, the URL builder is not
    entered, and the session ends in [Error] "Failed to initialize widget"
    with its URL untouched. *)
Theorem buildUrl_ip_rejected (onClose : option Callback) (h : Host) (u : User)
  (e : JsError) (s : State) :
  truthy (safeAddress u) = true ->
  getClientIp h = Throw e ->
  buildUrl h (Some u)
  = ([ setError None;
       console_log "address" (value_of (safeAddress u));
       call_getClientIp;
       console_error "Error building Mercuryo URL:" e;
       setError (Some "Failed to initialize widget");
       setLoading false ],
     Return tt)
  /\ step onClose s (UserEffect h (Some u))
     = {| loading := false; error := Some "Failed to initialize widget";
          finalUrl := finalUrl s |}.
Proof.
  intros Ha Hip.
  assert (E : buildUrl h (Some u)
              = ([ setError None;
                   console_log "address" (value_of (safeAddress u));
                   call_getClientIp;
                   console_error "Error building Mercuryo URL:" e;
                   setError (Some "Failed to initialize widget");
                   setLoading false ],
                 Return tt)).
  { unfold buildUrl. cbv beta iota zeta. rewrite Ha, Hip. reflexivity. }
  split; [exact E|]. unfold step, dispatch. rewrite E. reflexivity.
Qed.

Lemma buildUrl_ip_rejected_witness :
  sessionState
    (step None initialState
       (UserEffect
          {| crypto := sha512Crypto;
             Date_now := 1700000000000;
             getClientIp := Throw (mkError "TypeError" "Failed to fetch");
             EXPO_PUBLIC_MERCURYO_WIDGET_ID := Some "wid";
             EXPO_PUBLIC_MERCURYO_WIDGET_SECRET := Some "s3cr3t" |}
          (Some alice)))
  = Error "Failed to initialize widget".
Proof.
  rewrite (proj2 (buildUrl_ip_rejected None
                    {| crypto := sha512Crypto;
                       Date_now := 1700000000000;
                       getClientIp :=
                         Throw (mkError "TypeError" "Failed to fetch");
                       EXPO_PUBLIC_MERCURYO_WIDGET_ID := Some "wid";
                       EXPO_PUBLIC_MERCURYO_WIDGET_SECRET := Some "s3cr3t" |}
                    alice (mkError "TypeError" "Failed to fetch") initialState
                    eq_refl eq_refl)).
  reflexivity.
Defined.

(** X4: the configuration is looked at only after the client IP has been
    obtained: with the widget id or the secret missing, the lookup is still
    made, and what the component logs is the error "Mercuryo widget ID or
    secret is not set"; the URL builder is not entered. *)
Theorem buildUrl_configuration_checked_after_ip (h : Host) (u : User)
  (userIp : string) :
  truthy (safeAddress u) = true ->
  getClientIp h = Return userIp ->
  configurationMissing h ->
  buildUrl h (Some u)
  = ([ setError None;
       console_log "address" (value_of (safeAddress u));
       call_getClientIp;
       console_error "Error building Mercuryo URL:"
         (mkError "Error" "Mercuryo widget ID or secret is not set");
       setError (Some "Failed to initialize widget");
       setLoading false ],
     Return tt).
Proof.
  intros Ha Hip Hmiss. unfold buildUrl. cbv beta iota zeta.
  rewrite Ha, Hip.
  destruct Hmiss as [Hw | Hs].
  - rewrite Hw. reflexivity.
  - rewrite Hs.
    destruct (truthy (EXPO_PUBLIC_MERCURYO_WIDGET_ID h)); reflexivity.
Qed.

Lemma buildUrl_configuration_checked_after_ip_witness :
  In call_getClientIp
    (effects
       (buildUrl
          {| crypto := sha512Crypto;
             Date_now := 1700000000000;
             getClientIp := Return "1.2.3.4";
             EXPO_PUBLIC_MERCURYO_WIDGET_ID := None;
             EXPO_PUBLIC_MERCURYO_WIDGET_SECRET := Some "" |}
          (Some alice))).
Proof.
  rewrite (buildUrl_configuration_checked_after_ip
             {| crypto := sha512Crypto;
                Date_now := 1700000000000;
                getClientIp := Return "1.2.3.4";
                EXPO_PUBLIC_MERCURYO_WIDGET_ID := None;
                EXPO_PUBLIC_MERCURYO_WIDGET_SECRET := Some "" |}
             alice "1.2.3.4" eq_refl eq_refl (or_introl eq_refl)).
  cbn. auto.
Defined.

(** ** Identities without a usable address *)

Lemma falsy_address_effects (h : Host) (u : User) :
  truthy (safeAddress u) = false ->
  effects (buildUrl h (Some u))
  = [ setError None;
      console_log "address" (value_of (safeAddress u));
      setError (Some "No address provided");
      setLoading false ].
Proof.
  intros Ha. unfold buildUrl. cbv beta iota zeta. rewrite Ha. reflexivity.
Qed.

(** X5: an address that is unset or the empty string is refused in the same
    way from any state: no IP lookup, the message "No address provided", the
    loading flag down, and the URL the state held kept but not rendered. *)
Theorem buildUrl_falsy_address (onClose : option Callback) (h : Host)
  (u : User) (s : State) :
  truthy (safeAddress u) = false ->
  effects (buildUrl h (Some u))
  = [ setError None;
      console_log "address" (value_of (safeAddress u));
      setError (Some "No address provided");
      setLoading false ]
  /\ step onClose s (UserEffect h (Some u))
     = {| loading := false; error := Some "No address provided";
          finalUrl := finalUrl s |}
  /\ render (step onClose s (UserEffect h (Some u)))
     = {| spinner := false; body := ErrorText "No address provided" |}.
Proof.
  intros Ha. pose proof (falsy_address_effects h u Ha) as E.
  split; [exact E|]. unfold step, dispatch. rewrite E.
  split; reflexivity.
Qed.

Lemma buildUrl_falsy_address_witness :
  sessionState
    (step None
       (run None initialState [UserEffect sampleHost (Some alice); IframeLoad])
       (UserEffect sampleHost (Some {| safeAddress := Some "" |})))
  = Error "No address provided".
Proof.
  unfold sessionState.
  rewrite (proj2 (proj2 (buildUrl_falsy_address None sampleHost
                           {| safeAddress := Some "" |}
                           (run None initialState
                              [UserEffect sampleHost (Some alice); IframeLoad])
                           eq_refl))).
  reflexivity.
Defined.

(** X6: a session that showed "No address provided" and then loses its
    identity is left with nothing on screen: the error is cleared, the
    spinner does not come back, and there is no URL. *)
Theorem no_address_then_no_identity_is_blank (onClose : option Callback)
  (h h' : Host) (u : User) :
  truthy (safeAddress u) = false ->
  run onClose initialState [UserEffect h (Some u); UserEffect h' None]
  = {| loading := false; error := None; finalUrl := "" |}
  /\ render (run onClose initialState
               [UserEffect h (Some u); UserEffect h' None])
     = {| spinner := false; body := Nothing |}
  /\ sessionState (run onClose initialState
                     [UserEffect h (Some u); UserEffect h' None]) = Idle.
Proof.
  intros Ha.
  assert (E : run onClose initialState
                [UserEffect h (Some u); UserEffect h' None]
              = {| loading := false; error := None; finalUrl := "" |}).
  { unfold run. cbn [fold_left]. unfold step at 2. unfold dispatch.
    rewrite (falsy_address_effects h u Ha). reflexivity. }
  rewrite E. repeat split; reflexivity.
Qed.

Lemma no_address_then_no_identity_is_blank_witness :
  sessionState
    (run None initialState
       [ UserEffect sampleHost (Some {| safeAddress := None |});
         UserEffect sampleHost None ])
  = Idle.
Proof.
  apply (no_address_then_no_identity_is_blank None sampleHost sampleHost
           {| safeAddress := None |}).
  reflexivity.
Defined.

(** ** What holds along every session *)

Lemma harmless_loading (t : list Effect) :
  forallb harmless t = true ->
  forall s, loading s = false -> loading (apply_effects s t) = false.
Proof.
  induction t as [|e t IH]; intros H s Hs; [exact Hs|].
  cbn [forallb] in H. apply andb_true_iff in H as [He Ht].
  cbn [apply_effects fold_left].
  apply (IH Ht). destruct e; cbn in *; try assumption.
  now destruct b.
Qed.

Lemma step_loading (onClose : option Callback) (s : State) (ev : Event) :
  loading s = false -> loading (step onClose s ev) = false.
Proof.
  intros Hs. unfold step.
  destruct ev as [h user | | | data]; cbn [dispatch].
  - now apply harmless_loading; [apply buildUrl_harmless|].
  - destruct (body (render s)); try exact Hs. reflexivity.
  - destruct (body (render s)); try exact Hs. reflexivity.
  - now rewrite handleMessage_state.
Qed.

(** X7: the loading flag only ever goes down: once a session has taken the
    spinner away, no sequence of identity changes, iframe events and messages
    brings it back. *)
Theorem spinner_never_returns (onClose : option Callback) (evs : list Event)
  (s : State) :
  loading s = false ->
  loading (run onClose s evs) = false
  /\ spinner (render (run onClose s evs)) = false
  /\ sessionState (run onClose s evs) <> Loading.
Proof.
  intros Hs.
  assert (E : loading (run onClose s evs) = false).
  { revert s Hs. unfold run.
    induction evs as [|ev evs IH]; intros s Hs; [exact Hs|].
    cbn [fold_left]. apply IH. now apply step_loading. }
  split; [exact E|]. split; [exact E|].
  intros HL. apply sessionState_Loading in HL as (HL & _). congruence.
Qed.

Lemma spinner_never_returns_witness :
  loading
    (run None
       {| loading := false; error := Some "No address provided";
          finalUrl := "" |}
       [ UserEffect sampleHost None;
         UserEffect sampleHost (Some bob);
         IframeError;
         UserEffect sampleHost (Some alice) ])
  = false.
Proof.
  apply (spinner_never_returns None
           [ UserEffect sampleHost None;
             UserEffect sampleHost (Some bob);
             IframeError;
             UserEffect sampleHost (Some alice) ]
           {| loading := false; error := Some "No address provided";
              finalUrl := "" |}).
  reflexivity.
Defined.

Lemma prefix_empty (s : string) : String.prefix "" s = true.
Proof. destruct s; reflexivity. Qed.

Lemma widgetUrl_known
  (widgetId address merchantTransactionId signature : string) :
  knownUrl (widgetUrl widgetId address merchantTransactionId signature) = true.
Proof. unfold knownUrl, widgetUrl. cbn. apply prefix_empty. Qed.

Lemma step_known (onClose : option Callback) (s : State) (ev : Event) :
  knownError (error s) = true -> knownUrl (finalUrl s) = true ->
  knownError (error (step onClose s ev)) = true
  /\ knownUrl (finalUrl (step onClose s ev)) = true.
Proof.
  intros He Hu. unfold step.
  destruct ev as [h user | | | data]; cbn [dispatch].
  - destruct (buildUrl_trace h user)
      as [_ | u _ _ | u logged _ _ Hl | u ip sig _ _ _ _ _ _ url].
    + split; [reflexivity | exact Hu].
    + split; [reflexivity | exact Hu].
    + rewrite !apply_effects_app, (apply_effects_no_setter _ _ Hl).
      split; [reflexivity | exact Hu].
    + split; [reflexivity | apply widgetUrl_known].
  - destruct (body (render s)); split; assumption.
  - destruct (body (render s)); split; try assumption; reflexivity.
  - rewrite handleMessage_state. now split.
Qed.

(** X8: along every session the error held is none or one of the three
    fixed messages, and the URL held is empty or starts with the widget
    endpoint followed by [?widget_id=]. *)
Theorem session_keeps_known_error_and_url (onClose : option Callback)
  (evs : list Event) :
  knownError (error (run onClose initialState evs)) = true
  /\ knownUrl (finalUrl (run onClose initialState evs)) = true.
Proof.
  assert (G : forall s,
             knownError (error s) = true -> knownUrl (finalUrl s) = true ->
             knownError (error (run onClose s evs)) = true
             /\ knownUrl (finalUrl (run onClose s evs)) = true).
  { unfold run. induction evs as [|ev evs IH]; intros s He Hu; [now split|].
    cbn [fold_left].
    destruct (step_known onClose s ev He Hu) as [He' Hu']. now apply IH. }
  apply G; reflexivity.
Qed.

Lemma step_ignores_messages (onClose onClose' : option Callback) (s : State)
  (ev : Event) :
  step onClose s ev = if isMessage ev then s else step onClose' s ev.
Proof.
  destruct ev as [h user | | | data]; cbn [isMessage]; try reflexivity.
  unfold step, dispatch. apply handleMessage_state.
Qed.

(** X9: the state of a session owes nothing to the messages received nor to
    the [onClose] callback: taking the messages out of the sequence of
    events, and changing the callback, lead to the same state. *)
Theorem session_state_ignores_messages (onClose onClose' : option Callback)
  (evs : list Event) (s : State) :
  run onClose s evs
  = run onClose' s (filter (fun ev => negb (isMessage ev)) evs).
Proof.
  revert s. unfold run.
  induction evs as [|ev evs IH]; intros s; [reflexivity|].
  cbn [fold_left filter].
  rewrite (step_ignores_messages onClose onClose' s ev).
  destruct (isMessage ev); cbn [negb]; [apply IH|].
  cbn [fold_left]. apply IH.
Qed.

(** ** The transaction id *)

Lemma to_int_not_nil (n : Z) :
  Z.to_int n <> Decimal.Pos Decimal.Nil
  /\ Z.to_int n <> Decimal.Neg Decimal.Nil.
Proof.
  split; intros H; pose proof (DecimalZ.of_to n) as E; rewrite H in E;
    cbn in E; subst n; discriminate H.
Qed.

Lemma Number_toString_inj (n m : Z) :
  Number_toString n = Number_toString m -> n = m.
Proof.
  unfold Number_toString. intros H.
  apply DecimalZ.to_int_inj.
  destruct (to_int_not_nil n) as [Hn1 Hn2], (to_int_not_nil m) as [Hm1 Hm2].
  pose proof (NilZero.isi _ Hn1 Hn2) as En.
  pose proof (NilZero.isi _ Hm1 Hm2) as Em.
  rewrite H in En. congruence.
Qed.

Lemma append_inv_head (x y z : string) : x ++ y = x ++ z -> y = z.
Proof.
  induction x as [|c x IH]; cbn; [auto|]. intros [= H]. now apply IH.
Qed.

Lemma before_separator (c : ascii) (x y : string) :
  contains c x = false -> before c (x ++ String c y) = x.
Proof.
  induction x as [|a x IH]; cbn.
  - now rewrite Ascii.eqb_refl.
  - intros H. apply orb_false_iff in H as [Ha Hx].
    now rewrite Ha, IH.
Qed.

Lemma widgetUrl_around_id
  (widgetId address merchantTransactionId signature : string) :
  widgetUrl widgetId address merchantTransactionId signature
  = ("https://exchange.mercuryo.io/?widget_id=" ++ widgetId
     ++ "&address=" ++ address ++ "&merchant_transaction_id=")
    ++ merchantTransactionId
    ++ String "&" ("signature=" ++ encodeURIComponent signature
                   ++ "&type=buy&fiat_currency=EUR&networks=ETHEREUM&currency=USDC").
Proof.
  unfold widgetUrl. repeat rewrite append_assoc. reflexivity.
Qed.

(** X10: the transaction id is the decimal rendering of the clock, which
    tells any two instants apart: two builds for the same address and widget
    id at different instants never return the same URL, whatever the digest
    service answers. *)
Theorem builds_at_different_instants_differ (c : Crypto) (now1 now2 : Z)
  (address widgetId secret1 secret2 ip1 ip2 url1 url2 : string) :
  now1 <> now2 ->
  outcome (buildMercuryoWidgetUrl c now1 address widgetId secret1 ip1)
    = Return url1 ->
  outcome (buildMercuryoWidgetUrl c now2 address widgetId secret2 ip2)
    = Return url2 ->
  Number_toString now1 <> Number_toString now2 /\ url1 <> url2.
Proof.
  intros Hnow H1 H2.
  assert (Hid : Number_toString now1 <> Number_toString now2)
    by (intros E; now apply Hnow, Number_toString_inj).
  split; [exact Hid|].
  rewrite buildMercuryoWidgetUrl_factors in H1, H2.
  destruct (createWidgetSignature c address secret1 ip1 _) as [sig1|];
    [|discriminate H1].
  destruct (createWidgetSignature c address secret2 ip2 _) as [sig2|];
    [|discriminate H2].
  unfold outcome, snd in H1, H2. injection H1 as <-. injection H2 as <-.
  intros E. rewrite !widgetUrl_around_id in E.
  apply append_inv_head in E.
  apply (f_equal (before "&")) in E.
  rewrite !before_separator in E by (apply Number_toString_free; auto).
  contradiction.
Qed.

Lemma builds_at_different_instants_differ_witness :
  widgetUrl "wid" "0xABC" (Number_toString 1700000000000) "v2:13"
  <> widgetUrl "wid" "0xABC" (Number_toString 1700000000001) "v2:13".
Proof.
  apply (builds_at_different_instants_differ lengthCrypto
           1700000000000 1700000000001 "0xABC" "wid" "s" "s" "" ""); 
    [discriminate | reflexivity | reflexivity].
Defined.

(** ** The shape of the signature *)

Lemma add_words_length (x y : list Z) :
  List.length (SHA512.add_words x y)
  = Nat.min (List.length x) (List.length y).
Proof.
  revert y. induction x as [|a x IH]; intros [|b y]; cbn; auto.
Qed.

Lemma rounds_length (ks v win : list Z) :
  List.length v = 8%nat -> List.length (SHA512.rounds ks v win) = 8%nat.
Proof.
  revert v win. induction ks as [|k ks IH]; intros v win Hv; [exact Hv|].
  cbn [SHA512.rounds]. unfold SHA512.round. apply IH. reflexivity.
Qed.

Lemma compress_length (h block : list Z) :
  List.length h = 8%nat -> List.length (SHA512.compress h block) = 8%nat.
Proof.
  intros Hh. unfold SHA512.compress.
  now rewrite add_words_length, rounds_length, Hh.
Qed.

Lemma be_bytes_length (n : nat) (x : Z) :
  List.length (SHA512.be_bytes n x) = n.
Proof. induction n as [|n IH]; cbn; [reflexivity | now rewrite IH]. Qed.

Lemma digest_length (msg : list Z) :
  List.length (SHA512.digest msg) = 64%nat.
Proof.
  unfold SHA512.digest.
  assert (H : forall blocks h,
             List.length h = 8%nat ->
             List.length (fold_left SHA512.compress blocks h) = 8%nat).
  { induction blocks as [|b blocks IH]; intros h Hh; [exact Hh|].
    cbn [fold_left]. now apply IH, compress_length. }
  assert (F : forall ws,
             List.length (flat_map (SHA512.be_bytes 8) ws)
             = (8 * List.length ws)%nat).
  { induction ws as [|w ws IH]; [reflexivity|].
    cbn [flat_map]. rewrite length_app, be_bytes_length, IH. cbn [List.length].
    lia. }
  rewrite F, H; reflexivity.
Qed.

Lemma hex_of_bytes_length (bs : list Z) :
  String.length (hex_of_bytes bs) = (2 * List.length bs)%nat.
Proof.
  induction bs as [|b bs IH]; [reflexivity|].
  cbn [hex_of_bytes String.length List.length]. rewrite IH. lia.
Qed.

Lemma hexDigit_lower (d : Z) : 0 <= d < 16 -> isLowerHex (hexDigit d) = true.
Proof.
  intros H. apply nibble_cases in H. simpl in H.
  repeat (destruct H as [<- | H]; [reflexivity|]). contradiction.
Qed.

Lemma hex_of_bytes_lower (bs : list Z) :
  allChars isLowerHex (hex_of_bytes bs) = true.
Proof.
  induction bs as [|b bs IH]; [reflexivity|].
  cbn [hex_of_bytes allChars].
  rewrite !hexDigit_lower, IH by (apply Z.mod_pos_bound; lia). reflexivity.
Qed.

Lemma lowerHex_unescaped (c : ascii) :
  isLowerHex c = true -> uriUnescaped c = true.
Proof.
  unfold isLowerHex, uriUnescaped, in_range. intros H.
  apply orb_true_iff in H as [H | H].
  - rewrite H. now rewrite !orb_true_r.
  - apply andb_true_iff in H as [H1 H2].
    apply N.leb_le in H1, H2.
    assert (E : ((N_of_ascii "a" <=? N_of_ascii c)%N
                 && (N_of_ascii c <=? N_of_ascii "z")%N) = true).
    { apply andb_true_iff. split; apply N.leb_le; [exact H1|].
      cbn in *. lia. }
    rewrite E. now rewrite orb_true_r.
Qed.

Lemma encodeURIComponent_lowerHex (s : string) :
  allChars isLowerHex s = true -> encodeURIComponent s = s.
Proof.
  induction s as [|c s IH]; [reflexivity|].
  cbn [allChars encodeURIComponent]. intros H.
  apply andb_true_iff in H as [Hc Hs].
  now rewrite (lowerHex_unescaped c Hc), IH.
Qed.

(** X11: with a digest service that computes SHA-512, every signature is
    "v2:" followed by 128 lower-case hexadecimal digits, whatever the four
    fields, and the only character that [encodeURIComponent] changes in it
    on the way into the URL is the colon. *)
Theorem createWidgetSignature_shape (c : Crypto)
  (address secret ip merchantTransactionId : string) :
  implementsSha512 c ->
  exists hash,
    createWidgetSignature c address secret ip merchantTransactionId
      = Return ("v2:" ++ hash)
    /\ String.length hash = 128%nat
    /\ allChars isLowerHex hash = true
    /\ encodeURIComponent ("v2:" ++ hash) = "v2%3A" ++ hash.
Proof.
  intros Hc.
  exists (sha512hex (address ++ secret ++ ip ++ merchantTransactionId)).
  split; [apply createWidgetSignature_digest, Hc|].
  unfold sha512hex.
  split; [now rewrite hex_of_bytes_length, digest_length|].
  split; [apply hex_of_bytes_lower|].
  change (encodeURIComponent ("v2:" ++ ?h)) with ("v2%3A" ++ encodeURIComponent h).
  now rewrite encodeURIComponent_lowerHex by apply hex_of_bytes_lower.
Qed.

Lemma createWidgetSignature_shape_witness :
  exists hash,
    createWidgetSignature sha512Crypto "" "" "" "" = Return ("v2:" ++ hash)
    /\ String.length hash = 128%nat
    /\ allChars isLowerHex hash = true
    /\ encodeURIComponent ("v2:" ++ hash) = "v2%3A" ++ hash.
Proof.
  apply (createWidgetSignature_shape sha512Crypto "" "" "" "").
  exact sha512Crypto_implementsSha512.
Defined.

(** * Properties of the second screen *)

(** ** Its URL *)

Lemma BuyCrypto_createWidgetSignature_same (c : Crypto)
  (address secret ip merchantTransactionId : string) :
  BuyCrypto.createWidgetSignature c address secret ip merchantTransactionId
  = createWidgetSignature c address secret ip merchantTransactionId.
Proof. reflexivity. Qed.

Lemma BuyCrypto_buildMercuryoWidgetUrl_factors (c : Crypto) (now : Z)
  (address widgetId widgetSecret userIp : string) :
  BuyCrypto.buildMercuryoWidgetUrl c now address widgetId widgetSecret userIp
  = match createWidgetSignature c address widgetSecret userIp
            (Number_toString now) with
    | Return signature =>
        ([], Return (BuyCrypto.widgetUrl widgetId address (Number_toString now)
                       signature))
    | Throw e =>
        ([console_error "Error generating Mercuryo widget URL:" e], Throw e)
    end.
Proof.
  unfold BuyCrypto.buildMercuryoWidgetUrl.
  rewrite BuyCrypto_createWidgetSignature_same.
  destruct (createWidgetSignature c address widgetSecret userIp _)
    as [signature | e]; [|reflexivity].
  unfold BuyCrypto.widgetUrl, try_catch, bind, await, ret.
  cbn [app]. repeat rewrite append_assoc. reflexivity.
Qed.

Lemma BuyCrypto_widgetUrl_query
  (widgetId address merchantTransactionId signature : string) :
  BuyCrypto.widgetUrl widgetId address merchantTransactionId signature
  = "https://exchange.mercuryo.io/?"
    ++ String.concat "&"
         [ "widget_id=" ++ widgetId;
           "address=" ++ address;
           "merchant_transaction_id=" ++ merchantTransactionId;
           "signature=" ++ encodeURIComponent signature;
           "fiat_currency=EUR"; "networks=ETHEREUM"; "currency=USDC";
           "theme=exolix" ].
Proof.
  unfold BuyCrypto.widgetUrl. cbn [String.concat].
  repeat rewrite append_assoc. reflexivity.
Qed.

Lemma BuyCrypto_widgetUrl_queryParams
  (widgetId address merchantTransactionId signature : string) :
  delimiterFree widgetId = true ->
  delimiterFree address = true ->
  delimiterFree merchantTransactionId = true ->
  queryParams
    (BuyCrypto.widgetUrl widgetId address merchantTransactionId signature)
  = [ ("widget_id", widgetId);
      ("address", address);
      ("merchant_transaction_id", merchantTransactionId);
      ("signature", encodeURIComponent signature);
      ("fiat_currency", "EUR"); ("networks", "ETHEREUM");
      ("currency", "USDC"); ("theme", "exolix") ].
Proof.
  intros Hw Ha Hm.
  apply delimiterFree_parts in Hw as [Hw1 Hw2], Ha as [Ha1 Ha2],
      Hm as [Hm1 Hm2].
  destruct (delimiterFree_parts _ (encoded_delimiterFree signature))
    as [Hs1 Hs2].
  unfold queryParams, queryString.
  rewrite before_whole.
  - rewrite BuyCrypto_widgetUrl_query.
    change (after "?" ("https://exchange.mercuryo.io/?" ++ ?q)) with q.
    rewrite split_concat.
    + reflexivity.
    + discriminate.
    + cbn [forallb]. rewrite !contains_app, Hw1, Ha1, Hm1, Hs1. reflexivity.
  - unfold BuyCrypto.widgetUrl.
    rewrite !contains_app, Hw2, Ha2, Hm2, Hs2. reflexivity.
Qed.

(** X12: when the digest is obtained and neither the address nor the widget
    id holds an ampersand or a number sign, the URL of the second screen has
    exactly the eight pairs below: the seven required parameters once each,
    then [theme=exolix], and no [type] parameter. *)
Theorem BuyCrypto_url_query_parameters (c : Crypto) (now : Z)
  (address widgetId widgetSecret userIp hash : string) :
  digestStringAsync c SHA512
    (address ++ widgetSecret ++ userIp ++ Number_toString now) = Return hash ->
  delimiterFree address = true ->
  delimiterFree widgetId = true ->
  exists url,
    BuyCrypto.buildMercuryoWidgetUrl c now address widgetId widgetSecret userIp
      = ([], Return url)
    /\ queryParams url
       = [ ("widget_id", widgetId);
           ("address", address);
           ("merchant_transaction_id", Number_toString now);
           ("signature", encodeURIComponent ("v2:" ++ hash));
           ("fiat_currency", "EUR"); ("networks", "ETHEREUM");
           ("currency", "USDC"); ("theme", "exolix") ]
    /\ Forall (fun name => occurrences name url = 1%nat) requiredParams
    /\ occurrences "theme" url = 1%nat
    /\ occurrences "type" url = 0%nat.
Proof.
  intros Hd Ha Hw.
  exists (BuyCrypto.widgetUrl widgetId address (Number_toString now)
            ("v2:" ++ hash)).
  assert (Hq := BuyCrypto_widgetUrl_queryParams widgetId address
                  (Number_toString now) ("v2:" ++ hash) Hw Ha
                  (Number_toString_delimiterFree now)).
  split; [|split; [exact Hq|]].
  - rewrite BuyCrypto_buildMercuryoWidgetUrl_factors.
    now rewrite (createWidgetSignature_digest _ _ _ _ _ _ Hd).
  - unfold occurrences, requiredParams. rewrite Hq.
    split; [|split; reflexivity].
    repeat (apply Forall_cons; [reflexivity|]). apply Forall_nil.
Qed.

Lemma BuyCrypto_url_query_parameters_witness :
  exists url,
    BuyCrypto.buildMercuryoWidgetUrl sha512Crypto 1700000000000 "0xABC" "wid"
      "s3cr3t" "1.2.3.4" = ([], Return url)
    /\ occurrences "theme" url = 1%nat
    /\ occurrences "type" url = 0%nat.
Proof.
  destruct (BuyCrypto_url_query_parameters sha512Crypto 1700000000000
              "0xABC" "wid" "s3cr3t" "1.2.3.4"
              (sha512hex "0xABCs3cr3t1.2.3.41700000000000")
              eq_refl eq_refl eq_refl)
    as (url & Hbuild & _ & _ & Htheme & Htype).
  exists url. auto.
Defined.

Lemma widgetUrl_common
  (widgetId address merchantTransactionId signature : string) :
  widgetUrl widgetId address merchantTransactionId signature
  = commonUrl widgetId address merchantTransactionId signature
    ++ "&type=buy&fiat_currency=EUR&networks=ETHEREUM&currency=USDC".
Proof.
  unfold widgetUrl, commonUrl. repeat rewrite append_assoc. reflexivity.
Qed.

Lemma BuyCrypto_widgetUrl_common
  (widgetId address merchantTransactionId signature : string) :
  BuyCrypto.widgetUrl widgetId address merchantTransactionId signature
  = commonUrl widgetId address merchantTransactionId signature
    ++ "&fiat_currency=EUR&networks=ETHEREUM&currency=USDC&theme=exolix".
Proof.
  unfold BuyCrypto.widgetUrl, commonUrl. repeat rewrite append_assoc.
  reflexivity.
Qed.

(** X13: on the same inputs at the same instant the two URL builders log the
    same, fail together with the same error, and otherwise return URLs with
    the same widget id, address, transaction id and signature: the first
    ends in [type=buy] and the three fixed parameters, the second in the
    three fixed parameters and [theme=exolix]. *)
Theorem builders_share_signed_part (c : Crypto) (now : Z)
  (address widgetId widgetSecret userIp : string) :
  effects (buildMercuryoWidgetUrl c now address widgetId widgetSecret userIp)
  = effects (BuyCrypto.buildMercuryoWidgetUrl c now address widgetId
               widgetSecret userIp)
  /\ (forall e,
         outcome (buildMercuryoWidgetUrl c now address widgetId widgetSecret
                    userIp) = Throw e
         <-> outcome (BuyCrypto.buildMercuryoWidgetUrl c now address widgetId
                        widgetSecret userIp) = Throw e)
  /\ (forall url,
         outcome (buildMercuryoWidgetUrl c now address widgetId widgetSecret
                    userIp) = Return url ->
         exists signature,
           url = commonUrl widgetId address (Number_toString now) signature
                 ++ "&type=buy&fiat_currency=EUR&networks=ETHEREUM&currency=USDC"
           /\ outcome (BuyCrypto.buildMercuryoWidgetUrl c now address widgetId
                         widgetSecret userIp)
              = Return
                  (commonUrl widgetId address (Number_toString now) signature
                   ++ "&fiat_currency=EUR&networks=ETHEREUM&currency=USDC&theme=exolix")).
Proof.
  rewrite buildMercuryoWidgetUrl_factors,
    BuyCrypto_buildMercuryoWidgetUrl_factors.
  destruct (createWidgetSignature c address widgetSecret userIp _)
    as [sig | e0]; unfold effects, outcome, fst, snd.
  - split; [reflexivity|]. split; [intros e; split; discriminate|].
    intros url [= <-]. exists sig.
    now rewrite widgetUrl_common, BuyCrypto_widgetUrl_common.
  - split; [reflexivity|]. split; [intros e; split; auto|].
    discriminate.
Qed.

(** ** Its completion handshake *)

Lemma BuyCrypto_handleMessage_shape (onClose : option Callback)
  (data : JsValue) :
  BuyCrypto.handleMessage onClose data
  = (console_log "Mercuryo message received:" data
       :: match data with
          | JsNull =>
              [console_error "Error handling Mercuryo message:"
                 (mkError "TypeError"
                    "Cannot read properties of null (reading 'status')")]
          | _ =>
              if isCompletion data
              then match onClose with
                   | Some _ => closeEffects onClose
                   | None => []
                   end
              else []
          end,
     Return tt).
Proof.
  destruct data as [ | | b | n | s | fields | items]; try reflexivity.
  unfold BuyCrypto.handleMessage, BuyCrypto.optional_onClose, closeEffects,
    isCompletion.
  cbn -[strict_eq_string lookup_field].
  generalize (lookup_field "status" fields) (lookup_field "event" fields).
  intros status event.
  destruct (strict_eq_string status "success"),
           (strict_eq_string status "failure"),
           (strict_eq_string event "transaction.success"),
           (strict_eq_string event "transaction.failure");
    destruct onClose as [[[[]|e]]|]; reflexivity.
Qed.

Lemma BuyCrypto_handleMessage_state (onClose : option Callback)
  (data : JsValue) (s : State) :
  apply_effects s (effects (BuyCrypto.handleMessage onClose data)) = s.
Proof.
  rewrite BuyCrypto_handleMessage_shape. unfold effects, fst.
  destruct data; try (destruct s; reflexivity).
  cbn [apply_effects fold_left apply_effect].
  destruct (isCompletion _); [|reflexivity].
  destruct onClose; [apply closeEffects_state | reflexivity].
Qed.

(** X14: the handler of the second screen does what the handler of the
    first does when a callback is given, but it has nothing to fall back on:
    without a callback a completion message is logged and nothing else
    happens, where the first screen navigates back. *)
Theorem BuyCrypto_handleMessage_has_no_fallback (data : JsValue) :
  (forall cb,
      BuyCrypto.handleMessage (Some cb) data = handleMessage (Some cb) data)
  /\ outcome (BuyCrypto.handleMessage None data) = Return tt
  /\ filter completionAction (effects (BuyCrypto.handleMessage None data)) = []
  /\ filter completionAction (effects (handleMessage None data))
     = (if isCompletion data then [router_back] else []).
Proof.
  split; [|split; [|split]].
  - intros cb. now rewrite BuyCrypto_handleMessage_shape, handleMessage_shape.
  - now rewrite BuyCrypto_handleMessage_shape.
  - rewrite BuyCrypto_handleMessage_shape. unfold effects, fst.
    destruct data; try reflexivity.
    cbn [filter completionAction]. now destruct (isCompletion _).
  - rewrite handleMessage_shape. unfold effects, fst.
    destruct data; try reflexivity.
    cbn [filter completionAction]. now destruct (isCompletion _).
Qed.

(** ** Its session, next to the session of the first screen *)

Lemma sameScreen_body (s1 s2 : State) :
  sameScreen s1 s2 ->
  match body (render s1), body (BuyCrypto.render s2) with
  | ErrorText m1, ErrorText m2 => m1 = m2
  | Iframe _, Iframe _ => True
  | Nothing, Nothing => True
  | _, _ => False
  end.
Proof.
  intros (Hl & He & Hu). unfold render, BuyCrypto.render; cbn [body].
  rewrite <- He. destruct (truthy (error s1)); [reflexivity|].
  destruct Hu as [[-> ->] | (w & a & m & sig & -> & ->)]; exact I.
Qed.

Lemma sameScreen_update (s1 s2 : State) (l : bool) (e : option string) :
  sameScreen s1 s2 ->
  sameScreen {| loading := l; error := e; finalUrl := finalUrl s1 |}
             {| loading := l; error := e; finalUrl := finalUrl s2 |}.
Proof. intros (_ & _ & Hu). repeat split. exact Hu. Qed.

Lemma sameScreen_buildUrl (h : Host) (user : option User) (s1 s2 : State) :
  sameScreen s1 s2 ->
  sameScreen (apply_effects s1 (effects (buildUrl h user)))
             (apply_effects s2 (effects (BuyCrypto.buildUrl h user))).
Proof.
  intros R. pose proof R as (Hl & He & Hu).
  unfold buildUrl, BuyCrypto.buildUrl.
  destruct user as [u|]; cbv beta iota zeta.
  - destruct (truthy (safeAddress u)).
    + destruct (getClientIp h) as [ip|e].
      * destruct (truthy (EXPO_PUBLIC_MERCURYO_WIDGET_ID h));
        destruct (truthy (EXPO_PUBLIC_MERCURYO_WIDGET_SECRET h));
          try (cbn; now apply sameScreen_update).
        cbn -[buildMercuryoWidgetUrl BuyCrypto.buildMercuryoWidgetUrl].
        rewrite buildMercuryoWidgetUrl_factors,
          BuyCrypto_buildMercuryoWidgetUrl_factors.
        destruct (createWidgetSignature _ _ _ _ _) as [sig|e].
        -- unfold apply_effects, effects, fst.
           cbn [bind try_catch perform ret app fold_left apply_effect
                loading error finalUrl].
           split; [exact Hl|]. split; [reflexivity|]. right.
           now exists (narrowed (EXPO_PUBLIC_MERCURYO_WIDGET_ID h)),
                      (narrowed (safeAddress u)),
                      (Number_toString (Date_now h)), sig.
        -- cbn. now apply sameScreen_update.
      * cbn. now apply sameScreen_update.
    + cbn. now apply sameScreen_update.
  - cbn. rewrite Hl. now apply sameScreen_update.
Qed.

Lemma sameScreen_step (onClose : option Callback) (s1 s2 : State)
  (ev : Event) :
  sameScreen s1 s2 ->
  sameScreen (step onClose s1 ev) (BuyCrypto.step onClose s2 ev).
Proof.
  intros R. unfold step, BuyCrypto.step.
  destruct ev as [h user | | | data]; cbn [dispatch BuyCrypto.dispatch].
  - now apply sameScreen_buildUrl.
  - pose proof (sameScreen_body s1 s2 R) as B.
    destruct (body (render s1)), (body (BuyCrypto.render s2));
      try contradiction; try exact R.
    destruct R as (_ & He & Hu).
    unfold apply_effects, effects, BuyCrypto.handleIframeLoad,
      handleIframeLoad, perform, fst.
    cbn [fold_left apply_effect]. unfold sameScreen.
    cbn [loading error finalUrl]. auto.
  - pose proof (sameScreen_body s1 s2 R) as B.
    destruct (body (render s1)), (body (BuyCrypto.render s2));
      try contradiction; try exact R.
    cbn. now apply sameScreen_update.
  - now rewrite handleMessage_state, BuyCrypto_handleMessage_state.
Qed.

(** X15: fed the same events, the two screens go through the same states:
    at every moment they agree on the loading flag and on the error, and
    each holds no URL or the URL it assembles from the same widget id,
    address, transaction id and signature; so they show the spinner, the
    error text and the iframe at the same moments. *)
Theorem screens_run_alike (onClose : option Callback) (evs : list Event) :
  sameScreen (run onClose initialState evs)
             (BuyCrypto.run onClose initialState evs)
  /\ spinner (render (run onClose initialState evs))
     = spinner (BuyCrypto.render (BuyCrypto.run onClose initialState evs))
  /\ match body (render (run onClose initialState evs)),
           body (BuyCrypto.render (BuyCrypto.run onClose initialState evs))
     with
     | ErrorText m1, ErrorText m2 => m1 = m2
     | Iframe _, Iframe _ => True
     | Nothing, Nothing => True
     | _, _ => False
     end.
Proof.
  assert (G : forall s1 s2,
             sameScreen s1 s2 ->
             sameScreen (run onClose s1 evs) (BuyCrypto.run onClose s2 evs)).
  { unfold run, BuyCrypto.run.
    induction evs as [|ev evs IH]; intros s1 s2 R; [exact R|].
    cbn [fold_left]. now apply IH, sameScreen_step. }
  assert (R : sameScreen (run onClose initialState evs)
                (BuyCrypto.run onClose initialState evs)).
  { apply G. repeat split. now left. }
  split; [exact R|]. split; [apply R | now apply sameScreen_body].
Qed.

(** * The catch clause, and the URL along a session *)

(** X16: [null] is the one payload that reaches the catch clause of the
    handler: it passes the [typeof] test and the read of its [status] throws.
    With no callback, or with a callback that returns, an error is logged if
    and only if the payload is [null]; numbers, strings, booleans,
    [undefined], arrays and objects of any content never raise one. *)
Theorem only_null_reaches_catch (data : JsValue) :
  ((exists e,
       In (console_error "Error handling Mercuryo message:" e)
         (effects (handleMessage None data)))
   <-> data = JsNull)
  /\ ((exists e,
          In (console_error "Error handling Mercuryo message:" e)
            (effects (handleMessage (Some {| cb_outcome := Return tt |}) data)))
      <-> data = JsNull).
Proof.
  rewrite !handleMessage_shape. unfold effects, fst.
  split; split.
  - intros [e H]. destruct data; try reflexivity; cbn [In] in H;
      try (destruct (isCompletion _); cbn in H); intuition discriminate.
  - intros ->. eexists. right. left. reflexivity.
  - intros [e H]. destruct data; try reflexivity; cbn [In] in H;
      try (destruct (isCompletion _); cbn in H); intuition discriminate.
  - intros ->. eexists. right. left. reflexivity.
Qed.

Lemma harmless_url (t : list Effect) :
  forallb harmless t = true ->
  forall s, finalUrl s <> "" -> finalUrl (apply_effects s t) <> "".
Proof.
  intros H s Hs.
  destruct (harmless_prefix t H s (List.length t) Hs) as [Hu _].
  now rewrite firstn_all in Hu.
Qed.

Lemma step_url (onClose : option Callback) (s : State) (ev : Event) :
  finalUrl s <> "" -> finalUrl (step onClose s ev) <> "".
Proof.
  intros Hs. unfold step.
  destruct ev as [h user | | | data]; cbn [dispatch].
  - now apply harmless_url; [apply buildUrl_harmless|].
  - destruct (body (render s)); exact Hs.
  - destruct (body (render s)); exact Hs.
  - now rewrite handleMessage_state.
Qed.

(** X17: once a URL has been built the state never goes back to holding
    none: whatever follows, there is a URL in the state, so the screen shows
    either the iframe or an error text, never the bare spinner nor nothing. *)
Theorem url_never_cleared (onClose : option Callback) (evs : list Event)
  (s : State) :
  finalUrl s <> "" ->
  finalUrl (run onClose s evs) <> ""
  /\ body (render (run onClose s evs)) <> Nothing.
Proof.
  intros Hs.
  assert (E : finalUrl (run onClose s evs) <> "").
  { revert s Hs. unfold run.
    induction evs as [|ev evs IH]; intros s Hs; [exact Hs|].
    cbn [fold_left]. apply IH. now apply step_url. }
  split; [exact E|].
  unfold render; cbn [body].
  destruct (truthy (error _)); [discriminate|].
  destruct (String.eqb_spec (finalUrl (run onClose s evs)) "");
    [contradiction | discriminate].
Qed.

Lemma url_never_cleared_witness :
  finalUrl
    (run None
       (run None initialState [UserEffect sampleHost (Some alice)])
       [ IframeError;
         UserEffect sampleHost (Some {| safeAddress := None |});
         UserEffect sampleHost None ])
  <> "".
Proof.
  apply (url_never_cleared None
           [ IframeError;
             UserEffect sampleHost (Some {| safeAddress := None |});
             UserEffect sampleHost None ]
           (run None initialState [UserEffect sampleHost (Some alice)])).
  vm_compute. discriminate.
Defined.
